(** * CSVNoNinja: the host filter of [Python/CSVNoNinja.py]

    The script reads a CSV inventory with pandas, removes every host that
    runs the NinjaRMM agent, keeps one row per host and writes the result.
    This file embeds the pandas operations the script calls, the script's
    [main] as a program in a small process monad (heap of Python objects,
    standard output, files written, exceptions), and proves the properties
    of the filter and of [main] around it.  It also embeds
    [merge_files_in_folder] of [Python/Merger.py], which writes the files
    of a folder, in the order of their names, into one text. *)

From Stdlib Require Import List String Ascii Bool Arith Lia DecimalString.
From Stdlib Require Import NArith Permutation Sorted.
From Stdlib Require Orders Mergesort.
Import ListNotations.

Local Open Scope string_scope.
Local Open Scope list_scope.

(** ** The pandas data model *)

Module Pandas.

(** A cell of a frame as [read_csv] yields it: the missing value, a Python
    string, or a value [read_csv] parsed out of the text, a number or a
    boolean, held here under its canonical spelling.  [read_csv] types a
    column as a whole: the cells of a column are parsed values only when
    every cell of the column that is not missing parses, so the name [123]
    in a column of numbers is [Val "123"], and it is [Str "123"] only next
    to a name that is not a number. *)
Inductive scalar : Type :=
| NaN
| Str (s : string)
| Val (v : string).

(** A frame: the column labels and the rows, each row holding one cell per
    column, by position. *)
Record DataFrame : Type := {
  columns : list string;
  rows : list (list scalar)
}.

(** Exceptions the script can meet.  [KeyError] carries the labels that were
    not found; the exceptions pandas raises inside its indexing and merging
    are known by their class alone, their text changing from one release of
    pandas to the next; [Exception] stands for any other subclass of
    Python's [Exception], with its message. *)
Inductive PyExc : Type :=
| SystemExit (code : nat)
| KeyError (missing : list string)
| AttributeError
| ValueError
| IndexingError
| TypeError
| CalledProcessError (msg : string)
| Exception (msg : string).


Definition scalar_eqb (a b : scalar) : bool :=
  match a, b with
  | NaN, NaN => true
  | Str s, Str t => String.eqb s t
  | Val v, Val u => String.eqb v u
  | _, _ => false
  end.

(** Equality of composite keys.  pandas' [merge] and [duplicated] both
    factorize the key columns with missing values falling in one group, so
    two missing cells compare equal. *)
Fixpoint key_eqb (k1 k2 : list scalar) : bool :=
  match k1, k2 with
  | [], [] => true
  | a :: k1', b :: k2' => scalar_eqb a b && key_eqb k1' k2'
  | _, _ => false
  end.

Definition key_in (k : list scalar) (ks : list (list scalar)) : bool :=
  existsb (key_eqb k) ks.

Definition label_in (c : string) (cs : list string) : bool :=
  existsb (String.eqb c) cs.

(** Position of a label in the column index. *)
Fixpoint index_of (c : string) (cols : list string) : option nat :=
  match cols with
  | [] => None
  | c' :: cols' =>
      if String.eqb c c' then Some 0 else option_map S (index_of c cols')
  end.

Definition cell (i : nat) (r : list scalar) : scalar := nth i r NaN.

Definition take (ps : list nat) (r : list scalar) : list scalar :=
  map (fun i => cell i r) ps.

(** Positions of a list of labels; the labels that are absent are reported
    in the [KeyError]. *)
Definition positions (cs cols : list string) : PyExc + list nat :=
  match filter (fun c => negb (label_in c cols)) cs with
  | [] => inr (flat_map (fun c => match index_of c cols with
                                  | Some i => [i]
                                  | None => []
                                  end) cs)
  | missing => inl (KeyError missing)
  end.

(** Boolean indexing: keep the items whose flag is set. *)
Fixpoint mask_filter {A : Type} (m : list bool) (l : list A) : list A :=
  match m, l with
  | b :: m', x :: l' =>
      if b then x :: mask_filter m' l' else mask_filter m' l'
  | _, _ => []
  end.

(** [df[c]]. *)
Definition getitem (df : DataFrame) (c : string) : PyExc + list scalar :=
  match index_of c (columns df) with
  | Some i => inr (map (cell i) (rows df))
  | None => inl (KeyError [c])
  end.

Definition is_str (x : scalar) : bool :=
  match x with Str _ => true | _ => false end.

(** The dtype test of the [.str] accessor, on a column as [read_csv] typed
    it.  The column has the object dtype and holds strings when the table
    has no row or when some cell of the column is a string.  Otherwise the
    column holds numbers, booleans or missing values only (int64, float64
    or bool, or booleans next to missing values), and the accessor refuses
    it with an [AttributeError]. *)
Definition str_accessor (v : list scalar) : PyExc + list scalar :=
  match v with
  | [] => inr v
  | _ :: _ =>
      if existsb is_str v then inr v
      else inl AttributeError
  end.

(** Substring search: [pat] occurs in [s] at some offset.  The pattern of
    the script has no regular-expression metacharacter, so the search that
    [str.contains] performs is this one; it compares characters exactly. *)
Fixpoint contains (pat s : string) : bool :=
  if String.prefix pat s then true
  else match s with
       | EmptyString => false
       | String _ s' => contains pat s'
       end.

(** [series.str.contains(pat, na=na)]. *)
Definition str_contains (pat : string) (na : bool) (v : list scalar) : list bool :=
  map (fun x => match x with
                | Str s => contains pat s
                | _ => na
                end) v.

(** [df.loc[mask, cs]]. *)
Definition loc (df : DataFrame) (m : list bool) (cs : list string)
  : PyExc + DataFrame :=
  if negb (Nat.eqb (List.length m) (List.length (rows df))) then
    inl IndexingError
  else
    match positions cs (columns df) with
    | inl e => inl e
    | inr ps =>
        inr {| columns := cs; rows := map (take ps) (mask_filter m (rows df)) |}
    end.

(** [duplicated(keep='first')] over a sequence of keys: a key is flagged
    when an equal key came before it. *)
Fixpoint duplicated_from (seen ks : list (list scalar)) : list bool :=
  match ks with
  | [] => []
  | k :: ks' => key_in k seen :: duplicated_from (k :: seen) ks'
  end.

Definition duplicated (ks : list (list scalar)) : list bool :=
  duplicated_from [] ks.

(** [df.drop_duplicates(subset=subset)]; without a subset the key is the
    whole row. *)
Definition drop_duplicates (df : DataFrame) (subset : option (list string))
  : PyExc + DataFrame :=
  match positions (match subset with
                   | Some cs => cs
                   | None => columns df
                   end) (columns df) with
  | inl e => inl e
  | inr ps =>
      inr {| columns := columns df;
             rows := mask_filter
                       (map negb (duplicated (map (take ps) (rows df))))
                       (rows df) |}
  end.

(** Labels the indicator machinery of [merge] keeps for itself. *)
Definition reserved_indicator (c : string) : bool :=
  String.eqb c "_left_indicator" || String.eqb c "_right_indicator"
  || String.eqb c "_merge".

(** One left row of a left join with indicator: a copy per matching right
    row, tagged [both], or a single copy padded with missing cells and
    tagged [left_only]. *)
Definition merge_row (pl pr extra : list nat) (right : list (list scalar))
    (r : list scalar) : list (list scalar) :=
  match filter (fun q => key_eqb (take pl r) (take pr q)) right with
  | [] => [r ++ map (fun _ => NaN) extra ++ [Str "left_only"]]
  | matches => map (fun q => r ++ take extra q ++ [Str "both"]) matches
  end.

(** [left.merge(right, on=on, how='left', indicator=True)], for a right
    frame whose other columns do not clash with the left ones. *)
Definition merge_left_indicator (left right : DataFrame) (on : list string)
  : PyExc + DataFrame :=
  match positions on (columns left), positions on (columns right) with
  | inl e, _ => inl e
  | inr _, inl e => inl e
  | inr pl, inr pr =>
      if existsb reserved_indicator (columns left ++ columns right) then
        inl ValueError
      else
        let others := filter (fun c => negb (label_in c on)) (columns right) in
        match positions others (columns right) with
        | inl e => inl e
        | inr extra =>
            inr {| columns := columns left ++ others ++ ["_merge"];
                   rows := flat_map (merge_row pl pr extra (rows right))
                                    (rows left) |}
        end
  end.

(** [series == value]. *)
Definition series_eq (v : list scalar) (x : string) : list bool :=
  map (fun y => scalar_eqb y (Str x)) v.

(** [df[mask]]. *)
Definition getitem_mask (df : DataFrame) (m : list bool) : PyExc + DataFrame :=
  if negb (Nat.eqb (List.length m) (List.length (rows df))) then
    inl ValueError
  else inr {| columns := columns df; rows := mask_filter m (rows df) |}.

(** [df.drop(columns=c)]. *)
Definition drop (df : DataFrame) (c : string) : PyExc + DataFrame :=
  if label_in c (columns df) then
    let keep := map (fun c' => negb (String.eqb c' c)) (columns df) in
    inr {| columns := mask_filter keep (columns df);
           rows := map (mask_filter keep) (rows df) |}
  else inl (KeyError [c]).

End Pandas.

(** ** The Python process: objects, output, files, exceptions *)

Module Process.
Import Pandas.

(** Objects the script holds references to. *)
Inductive PyObj : Type :=
| Frame (f : DataFrame)
| Series (v : list scalar)
| BoolSeries (m : list bool).

(** State of the running script: the heap of objects (a reference is an
    index into it), the lines printed so far, the files written in full so
    far with the table each one holds, and the paths a failed write left
    open: such a file is empty or holds a part of the table. *)
Record Proc : Type := {
  heap : list PyObj;
  stdout : list string;
  files : list (string * DataFrame);
  damaged : list string
}.

(** What lies outside the script: the import machinery, pip, the two file
    dialogs, the file system. *)
Record World : Type := {
  (* pandas is importable when the script starts *)
  find_spec_pandas : bool;
  (* the exception [subprocess.check_call] raises on pip, if any *)
  pip_install : option PyExc;
  (* pandas is importable after pip ran *)
  find_spec_pandas_after : bool;
  (* the path chosen in the open dialog, or none *)
  open_dialog : option string;
  (* the table [pd.read_csv] parses from a path, or the message of the
     exception it raises *)
  read_csv : string -> string + DataFrame;
  getuser : string;
  (* the path chosen in the save dialog, or none *)
  save_dialog : option string;
  (* the message of the exception a write to a path raises, if any *)
  to_csv : string -> option string;
  (* when the write fails: the file had been opened for writing, and so
     created or emptied, before the exception *)
  to_csv_opened : string -> bool
}.

Definition M (A : Type) : Type := Proc -> (PyExc + A) * Proc.

Definition ret {A : Type} (a : A) : M A := fun p => (inr a, p).

Definition bind {A B : Type} (m : M A) (f : A -> M B) : M B :=
  fun p => match m p with
           | (inl e, p') => (inl e, p')
           | (inr a, p') => f a p'
           end.

Definition raise {A : Type} (e : PyExc) : M A := fun p => (inl e, p).

Definition lift {A : Type} (r : PyExc + A) : M A := fun p => (r, p).

(** [try: body / except <classes> as e: handler e]. *)
Definition try_except {A : Type} (body : M A) (catches : PyExc -> bool)
    (handler : PyExc -> M A) : M A :=
  fun p => match body p with
           | (inl e, p') => if catches e then handler e p' else (inl e, p')
           | (inr a, p') => (inr a, p')
           end.

Declare Scope proc_scope.
Delimit Scope proc_scope with proc.
Notation "x <- m ;; k" := (bind m (fun x => k))
  (at level 100, m at next level, right associativity) : proc_scope.
Notation "m ;; k" := (bind m (fun _ => k))
  (at level 100, right associativity) : proc_scope.
Local Open Scope proc_scope.

(** [print(s)], on a standard output that takes every line. *)
Definition print (s : string) : M unit :=
  fun p => (inr tt, {| heap := heap p;
                       stdout := stdout p ++ [s];
                       files := files p;
                       damaged := damaged p |}).

Definition sys_exit {A : Type} (code : nat) : M A := raise (SystemExit code).

(** A new object; its reference is the next free index. *)
Definition alloc (o : PyObj) : M nat :=
  fun p => (inr (List.length (heap p)),
            {| heap := heap p ++ [o];
               stdout := stdout p;
               files := files p;
               damaged := damaged p |}).

Definition frame_at (l : nat) : M DataFrame :=
  fun p => match nth_error (heap p) l with
           | Some (Frame f) => (inr f, p)
           | _ => (inl TypeError, p)
           end.

Definition series_at (l : nat) : M (list scalar) :=
  fun p => match nth_error (heap p) l with
           | Some (Series v) => (inr v, p)
           | _ => (inl TypeError, p)
           end.

Definition mask_at (l : nat) : M (list bool) :=
  fun p => match nth_error (heap p) l with
           | Some (BoolSeries m) => (inr m, p)
           | _ => (inl TypeError, p)
           end.

(** The pandas methods on references: each reads its operands and returns a
    new object. *)
Definition DataFrame_getitem (df : nat) (c : string) : M nat :=
  f <- frame_at df ;; v <- lift (getitem f c) ;; alloc (Series v).

Definition Series_str (s : nat) : M nat :=
  v <- series_at s ;; _ <- lift (str_accessor v) ;; ret s.

Definition Str_contains (s : nat) (pat : string) (na : bool) : M nat :=
  v <- series_at s ;; alloc (BoolSeries (str_contains pat na v)).

Definition DataFrame_loc (df m : nat) (cs : list string) : M nat :=
  f <- frame_at df ;; b <- mask_at m ;; r <- lift (loc f b cs) ;;
  alloc (Frame r).

Definition DataFrame_drop_duplicates (df : nat) (subset : option (list string))
  : M nat :=
  f <- frame_at df ;; r <- lift (drop_duplicates f subset) ;; alloc (Frame r).

Definition DataFrame_merge (left right : nat) (on : list string) : M nat :=
  f <- frame_at left ;; g <- frame_at right ;;
  r <- lift (merge_left_indicator f g on) ;; alloc (Frame r).

Definition Series_eq (s : nat) (x : string) : M nat :=
  v <- series_at s ;; alloc (BoolSeries (series_eq v x)).

Definition DataFrame_getitem_mask (df m : nat) : M nat :=
  f <- frame_at df ;; b <- mask_at m ;; r <- lift (getitem_mask f b) ;;
  alloc (Frame r).

Definition DataFrame_drop (df : nat) (c : string) : M nat :=
  f <- frame_at df ;; r <- lift (drop f c) ;; alloc (Frame r).

(** [pd.read_csv(path, encoding="cp1252", engine="python")]: the table, or
    the exception of a failed read. *)
Definition pd_read_csv (w : World) (path : string) : M nat :=
  match read_csv w path with
  | inl msg => raise (Exception msg)
  | inr f => alloc (Frame f)
  end.

(** [df.to_csv(path, index=False)]: pandas opens the path for writing and
    writes the table to it.  The write is not atomic: when it fails after
    the file was opened, the file stays behind, empty or cut short. *)
Definition DataFrame_to_csv (w : World) (df : nat) (path : string) : M unit :=
  f <- frame_at df ;;
  match to_csv w path with
  | Some msg =>
      fun p => (inl (Exception msg),
                {| heap := heap p;
                   stdout := stdout p;
                   files := files p;
                   damaged := if to_csv_opened w path
                              then damaged p ++ [path] else damaged p |})
  | None => fun p => (inr tt, {| heap := heap p;
                                 stdout := stdout p;
                                 files := files p ++ [(path, f)];
                                 damaged := damaged p |})
  end.

End Process.

(** ** The script *)

Module CSVNoNinja.
Import Pandas Process.
Local Open Scope proc_scope.

Definition nl : string := String (ascii_of_nat 10) EmptyString.
Definition nul : string := String (ascii_of_nat 0) EmptyString.

(** [str(e)] as the handlers print it.  The handlers of the script receive
    the exceptions of pip, of [read_csv] and of [to_csv]; the text of an
    exception of pandas' indexing is not modelled. *)
Definition exc_str (e : PyExc) : string :=
  match e with
  | SystemExit c => NilZero.string_of_uint (Nat.to_uint c)
  | KeyError missing => String.concat ", " missing
  | CalledProcessError msg | Exception msg => msg
  | AttributeError | ValueError | IndexingError | TypeError => EmptyString
  end.

(** [except Exception] lets [SystemExit] through. *)
Definition is_Exception (e : PyExc) : bool :=
  match e with SystemExit _ => false | _ => true end.

Definition is_CalledProcessError (e : PyExc) : bool :=
  match e with CalledProcessError _ => true | _ => false end.

(** Python truth value of a dialog result: [None] and the empty string are
    false. *)
Definition truthy (o : option string) : bool :=
  match o with
  | Some (String _ _) => true
  | _ => false
  end.

Definition or_empty (o : option string) : string :=
  match o with Some s => s | None => EmptyString end.

Definition ensure_pandas_installed (w : World) : M unit :=
  if negb (find_spec_pandas w) then
    print "Module 'pandas' not found. Attempting to install via pip..." ;;
    try_except
      (match pip_install w with Some e => raise e | None => ret tt end)
      is_CalledProcessError
      (fun e =>
         print ("Failed to install 'pandas'. Error:" ++ nl ++ exc_str e)%string ;;
         sys_exit 1) ;;
    if negb (find_spec_pandas_after w) then
      print "pandas still not found after pip install. Exiting." ;;
      sys_exit 1
    else print "Successfully installed pandas."
  else print "Module 'pandas' is already installed.".

(** The two dialogs return what the user chose. *)
Definition windows_file_dialog_open (w : World) (title filter_str : string)
  : M (option string) :=
  ret (open_dialog w).

Definition windows_file_dialog_save (w : World)
    (title filter_str default_filename initial_dir : string)
  : M (option string) :=
  ret (save_dialog w).

(** [os.path.join] of a folder and a file name, on Windows. *)
Definition os_path_join (a b : string) : string :=
  (a ++ String (ascii_of_nat 92) EmptyString ++ b)%string.

(** Step 4a of [main]: the (IP, HostName) pairs of the rows that carry the
    agent. *)
Definition main_step4a (df : nat) : M nat :=
  name <- DataFrame_getitem df "Name" ;;
  name_str <- Series_str name ;;
  ninja_mask <- Str_contains name_str "NinjaRMMAgent" false ;;
  sel <- DataFrame_loc df ninja_mask ["IP"; "HostName"] ;;
  hosts_with_ninja <- DataFrame_drop_duplicates sel None ;;
  ret hosts_with_ninja.

(** Steps 4b and 4c of [main]: the anti-join, then one row per host. *)
Definition main_step4bc (df hosts_with_ninja : nat) : M nat :=
  merged <- DataFrame_merge df hosts_with_ninja ["IP"; "HostName"] ;;
  indicator <- DataFrame_getitem merged "_merge" ;;
  left_only <- Series_eq indicator "left_only" ;;
  selected <- DataFrame_getitem_mask merged left_only ;;
  df_no_ninja <- DataFrame_drop selected "_merge" ;;
  df_no_ninja_unique <-
    DataFrame_drop_duplicates df_no_ninja (Some ["IP"; "HostName"]) ;;
  ret df_no_ninja_unique.

Definition main_step4 (df : nat) : M nat :=
  hosts_with_ninja <- main_step4a df ;;
  main_step4bc df hosts_with_ninja.

Definition csv_filter : string :=
  ("CSV Files" ++ nul ++ "*.csv" ++ nul ++ "All Files" ++ nul ++ "*.*"
     ++ nul ++ nul)%string.

(** Step 2 of [main]: the input path, or exit when none was chosen. *)
Definition main_step2 (w : World) : M string :=
  input_csv <- windows_file_dialog_open w "Select the CSV file to filter"
                 csv_filter ;;
  if negb (truthy input_csv) then
    print "No file selected. Exiting." ;; sys_exit 0
  else ret (or_empty input_csv).

(** Step 3 of [main]: read the table, or report the failure and exit. *)
Definition main_step3 (w : World) (input_csv : string) : M nat :=
  try_except (pd_read_csv w input_csv) is_Exception
    (fun e =>
       print ("Error reading CSV from " ++ input_csv ++ ":" ++ nl
                ++ exc_str e)%string ;;
       sys_exit 1).

(** Steps 5 to 7 of [main]: choose the output path and write the table. *)
Definition main_step567 (w : World) (df_no_ninja_unique : nat) : M unit :=
  let current_user := getuser w in
  let default_out_folder :=
    ("C:/Users/" ++ current_user ++ "/Downloads")%string in
  let default_out_name := "MachinesWithoutNinja.csv" in
  save_csv <- windows_file_dialog_save w "Save filtered CSV" csv_filter
                default_out_name default_out_folder ;;
  let save_csv :=
    if negb (truthy save_csv)
    then os_path_join default_out_folder default_out_name
    else or_empty save_csv in
  try_except
    (DataFrame_to_csv w df_no_ninja_unique save_csv ;;
     print ("Filtered CSV saved to: " ++ save_csv)%string)
    is_Exception
    (fun e =>
       print ("Failed to save CSV: " ++ exc_str e)%string ;;
       sys_exit 1).

Definition main (w : World) : M unit :=
  ensure_pandas_installed w ;;
  input_csv <- main_step2 w ;;
  df <- main_step3 w input_csv ;;
  df_no_ninja_unique <- main_step4 df ;;
  main_step567 w df_no_ninja_unique.

(** How the interpreter ends: the status of the process, what was printed,
    the files written in full, and the exception whose traceback goes to
    the error stream when one escapes [main]. *)
Record Outcome : Type := {
  status : nat;
  printed : list string;
  written : list (string * DataFrame);
  traceback : option PyExc
}.

Definition fresh : Proc :=
  {| heap := []; stdout := []; files := []; damaged := [] |}.

Definition run_main (w : World) : Outcome :=
  match main w fresh with
  | (inr _, p) =>
      {| status := 0; printed := stdout p; written := files p;
         traceback := None |}
  | (inl (SystemExit c), p) =>
      {| status := c; printed := stdout p; written := files p;
         traceback := None |}
  | (inl e, p) =>
      {| status := 1; printed := stdout p; written := files p;
         traceback := Some e |}
  end.


(** The filter as a function of the table: step 4 run on a process that
    holds the table, and the frame its result refers to. *)
Definition holding (T : DataFrame) : Proc :=
  {| heap := [Frame T]; stdout := []; files := []; damaged := [] |}.

Definition deref (r : (PyExc + nat) * Proc) : PyExc + DataFrame :=
  match r with
  | (inl e, _) => inl e
  | (inr l, p) =>
      match nth_error (heap p) l with
      | Some (Frame f) => inr f
      | _ => inl TypeError
      end
  end.

Definition filter_pipeline (T : DataFrame) : PyExc + DataFrame :=
  deref (main_step4 0 (holding T)).

(** The frame [hosts_with_ninja] of step 4a. *)
Definition exclusion_frame (T : DataFrame) : PyExc + DataFrame :=
  deref (main_step4a 0 (holding T)).

End CSVNoNinja.

(** ** What the filter is meant to compute *)

Module FilterSpec.
Import Pandas Process CSVNoNinja.

Definition marker : string := "NinjaRMMAgent".

Definition required : list string := ["Name"; "IP"; "HostName"].

(** The cell of a record under a column label. *)
Definition field (T : DataFrame) (c : string) (r : list scalar) : scalar :=
  match index_of c (columns T) with
  | Some i => cell i r
  | None => NaN
  end.

(** The (IP, HostName) pair of a record. *)
Definition host_key (T : DataFrame) (r : list scalar) : list scalar :=
  [field T "IP" r; field T "HostName" r].

(** [pat] is a substring of [s]. *)
Definition occurs_in (pat s : string) : Prop :=
  exists a b : string, s = (a ++ pat ++ b)%string.

(** The record's Name is present and contains the marker. *)
Definition carries_marker (T : DataFrame) (r : list scalar) : Prop :=
  exists s : string, field T "Name" r = Str s /\ occurs_in marker s.

(** ExclusionSet: the pairs of the records that carry the marker. *)
Definition ExclusionSet (T : DataFrame) (k : list scalar) : Prop :=
  exists r : list scalar,
    In r (rows T) /\ carries_marker T r /\ host_key T r = k.

(** [r] occurs in [l] and no record before it has its key. *)
Definition first_with_key (key : list scalar -> list scalar)
    (l : list (list scalar)) (r : list scalar) : Prop :=
  exists l1 l2 : list (list scalar),
    l = l1 ++ r :: l2 /\ forall r', In r' l1 -> key r' <> key r.

(** Stable deduplication by key: every record is kept unless an earlier one
    has the same key. *)
Fixpoint dedup_first (key : list scalar -> list scalar)
    (l : list (list scalar)) : list (list scalar) :=
  match l with
  | [] => []
  | r :: l' =>
      r :: filter (fun r' => negb (key_eqb (key r') (key r)))
                  (dedup_first key l')
  end.

(** What [drop_duplicates] keeps of a list of records, given the keys
    already seen. *)
Definition keep_first_from (key : list scalar -> list scalar)
    (seen : list (list scalar)) (l : list (list scalar))
  : list (list scalar) :=
  mask_filter (map negb (duplicated_from seen (map key l))) l.

(** Every row has one cell per column. *)
Definition rectangular (T : DataFrame) : Prop :=
  Forall (fun r => List.length r = List.length (columns T)) (rows T).

(** Decision procedures for the notions above. *)
Definition carries_marker_b (T : DataFrame) (r : list scalar) : bool :=
  match field T "Name" r with
  | Str s => contains marker s
  | _ => false
  end.

Definition marker_keys (T : DataFrame) : list (list scalar) :=
  map (host_key T) (filter (carries_marker_b T) (rows T)).

Definition excluded_b (T : DataFrame) (r : list scalar) : bool :=
  key_in (host_key T r) (marker_keys T).

(** The table without the records whose Name is not a string. *)
Definition named_only (T : DataFrame) : DataFrame :=
  {| columns := columns T;
     rows := filter (fun r => is_str (field T "Name" r)) (rows T) |}.

(** The frame [hosts_with_ninja] of a table that has its three columns and
    a text Name column: the distinct pairs of the marked records. *)
Definition hosts_frame (T : DataFrame) : DataFrame :=
  {| columns := ["IP"; "HostName"];
     rows := dedup_first (fun k => k) (marker_keys T) |}.

(** The records that survive the anti-join, in input order. *)
Definition retained (T : DataFrame) : list (list scalar) :=
  filter (fun r => negb (excluded_b T r)) (rows T).

(** A column of strings as [read_csv] types it: the table has no row, or
    some cell of the column is a string; see [str_accessor]. *)
Definition text_column (v : list scalar) : bool :=
  match v with
  | [] => true
  | _ :: _ => existsb is_str v
  end.

(** The tables on which step 4a runs to its end: the three columns are
    there and the Name column is text. *)
Definition columns_ok (T : DataFrame) : bool :=
  forallb (fun c => label_in c (columns T)) required
  && text_column (map (field T "Name") (rows T)).

(** The tables on which the whole of step 4 runs to its end: moreover no
    column bears a label that [merge] needs for its indicator. *)
Definition schema_ok (T : DataFrame) : bool :=
  columns_ok T && negb (existsb reserved_indicator (columns T)).

(** The table the specification describes: the retained records,
    deduplicated by host, under the columns of the input. *)
Definition filtered (T : DataFrame) : DataFrame :=
  {| columns := columns T;
     rows := dedup_first (host_key T) (retained T) |}.

(** The labels of [cs] that the index [cols] lacks. *)
Definition absent (cs cols : list string) : list string :=
  filter (fun c => negb (label_in c cols)) cs.

(** The exception step 4 raises on a table outside [schema_ok]: the first
    lookup that fails, in the order of the statements. *)
Definition schema_error (T : DataFrame) : PyExc :=
  if negb (label_in "Name" (columns T)) then KeyError ["Name"]
  else if negb (text_column (map (field T "Name") (rows T))) then
    AttributeError
  else
    match absent ["IP"; "HostName"] (columns T) with
    | [] => ValueError
    | missing => KeyError missing
    end.

(** Step 4 read as functions of the table alone. *)
Definition sbind {A B : Type} (r : PyExc + A) (f : A -> PyExc + B)
  : PyExc + B :=
  match r with
  | inl e => inl e
  | inr a => f a
  end.

Definition step4a_pure (T : DataFrame) : PyExc + DataFrame :=
  sbind (getitem T "Name") (fun name =>
  sbind (str_accessor name) (fun name_str =>
  sbind (loc T (str_contains "NinjaRMMAgent" false name_str)
             ["IP"; "HostName"]) (fun sel =>
  drop_duplicates sel None))).

Definition step4bc_pure (T H : DataFrame) : PyExc + DataFrame :=
  sbind (merge_left_indicator T H ["IP"; "HostName"]) (fun merged =>
  sbind (getitem merged "_merge") (fun indicator =>
  sbind (getitem_mask merged (series_eq indicator "left_only")) (fun selected =>
  sbind (drop selected "_merge") (fun df_no_ninja =>
  drop_duplicates df_no_ninja (Some ["IP"; "HostName"]))))).

Definition step4_pure (T : DataFrame) : PyExc + DataFrame :=
  sbind (step4a_pure T) (step4bc_pure T).

(** The process grew by new objects only. *)
Definition extends (p p' : Proc) : Prop :=
  exists news : list PyObj,
    p' = {| heap := heap p ++ news; stdout := stdout p; files := files p;
            damaged := damaged p |}.

(** [m], run from [p], ends in an extension of [p] with the outcome of
    [pure]: the same exception, or a result related to it by [R]. *)
Definition runs_as {A B : Type} (m : M A) (p : Proc) (pure : PyExc + B)
    (R : A -> B -> Proc -> Prop) : Prop :=
  exists p' : Proc,
    extends p p' /\
    match pure with
    | inl e => m p = (inl e, p')
    | inr b => exists a : A, m p = (inr a, p') /\ R a b p'
    end.

(** The reference [l] denotes the object [o] in [p]. *)
Definition refers (l : nat) (o : PyObj) (p : Proc) : Prop :=
  nth_error (heap p) l = Some o.

Definition refers_frame (l : nat) (f : DataFrame) (p : Proc) : Prop :=
  refers l (Frame f) p.

Definition refers_series (l : nat) (v : list scalar) (p : Proc) : Prop :=
  refers l (Series v) p.

Definition refers_mask (l : nat) (m : list bool) (p : Proc) : Prop :=
  refers l (BoolSeries m) p.

(** pandas is importable, at once or after a successful installation:
    [ensure_pandas_installed] returns. *)
Definition pandas_ready (w : World) : bool :=
  find_spec_pandas w
  || (match pip_install w with None => true | Some _ => false end
      && find_spec_pandas_after w).

(** The process after it printed some lines. *)
Definition printing (p : Proc) (lines : list string) : Proc :=
  {| heap := heap p; stdout := stdout p ++ lines; files := files p;
     damaged := damaged p |}.

(** The process after a write to [path] failed. *)
Definition spoiling (w : World) (path : string) (p : Proc) : Proc :=
  {| heap := heap p; stdout := stdout p; files := files p;
     damaged := if to_csv_opened w path
                then damaged p ++ [path] else damaged p |}.

(** The path the table is saved under. *)
Definition save_path (w : World) : string :=
  if negb (truthy (save_dialog w))
  then os_path_join ("C:/Users/" ++ getuser w ++ "/Downloads")%string
                    "MachinesWithoutNinja.csv"
  else or_empty (save_dialog w).

(** What [ensure_pandas_installed] prints when it succeeds. *)
Definition install_lines (w : World) : list string :=
  if find_spec_pandas w then ["Module 'pandas' is already installed."]
  else ["Module 'pandas' not found. Attempting to install via pip...";
        "Successfully installed pandas."].

End FilterSpec.

(** ** Tables and worlds of the scenarios *)

Module Scenarios.
Import Pandas Process.

Definition inventory (rs : list (list scalar)) : DataFrame :=
  {| columns := ["Name"; "IP"; "HostName"]; rows := rs |}.

(** The three-row scenario of the specification. *)
Definition T_scenario : DataFrame :=
  inventory [[Str "NinjaRMMAgent.exe"; Str "10.0.0.1"; Str "A"];
             [Str "chrome.exe"; Str "10.0.0.1"; Str "A"];
             [Str "chrome.exe"; Str "10.0.0.2"; Str "B"]].

(** Two processes on one host without the agent. *)
Definition T_two_processes : DataFrame :=
  inventory [[Str "chrome.exe"; Str "10.0.0.1"; Str "A"];
             [Str "firefox.exe"; Str "10.0.0.1"; Str "A"]].

(** One record, its Name missing. *)
Definition T_unnamed : DataFrame :=
  inventory [[NaN; Str "10.0.0.1"; Str "A"]].

(** A table that already has a column called [_merge]. *)
Definition T_merge_column : DataFrame :=
  {| columns := ["Name"; "IP"; "HostName"; "_merge"];
     rows := [[Str "chrome.exe"; Str "10.0.0.1"; Str "A"; Str "x"]] |}.

(** Missing keys: an agent on a host without IP, other records of that
    host, two records without any key, and a lower-case look-alike. *)
Definition T_missing_keys : DataFrame :=
  inventory [[Str "svc NinjaRMMAgent"; NaN; Str "A"];
             [Str "chrome.exe"; NaN; Str "A"];
             [NaN; NaN; Str "A"];
             [Str "chrome.exe"; NaN; NaN];
             [Str "firefox.exe"; NaN; NaN];
             [Str "ninjarmmagent.exe"; Str "10.0.0.9"; NaN]].

(** No IP column. *)
Definition T_no_ip : DataFrame :=
  {| columns := ["Name"; "HostName"];
     rows := [[Str "chrome.exe"; Str "A"]] |}.

(** Names that are all numbers: [read_csv] gives the column the dtype
    int64. *)
Definition T_numeric_names : DataFrame :=
  inventory [[Val "123"; Str "10.0.0.1"; Str "A"];
             [Val "456"; Str "10.0.0.2"; Str "B"]].

(** No IP column, and numbers for names. *)
Definition T_no_ip_numeric : DataFrame :=
  {| columns := ["Name"; "HostName"];
     rows := [[Val "123"; Str "A"]] |}.

(** A header without rows, with a column of its own. *)
Definition T_header_only : DataFrame :=
  {| columns := ["Site"; "Name"; "IP"; "HostName"]; rows := [] |}.

(** A machine where pandas is installed, the user picks [inventory.csv]
    and cancels the save dialog, the read gives [r] and writes succeed. *)
Definition world_reading (r : string + DataFrame) : World :=
  {| find_spec_pandas := true;
     pip_install := None;
     find_spec_pandas_after := true;
     open_dialog := Some "inventory.csv";
     read_csv := fun _ => r;
     getuser := "admin";
     save_dialog := None;
     to_csv := fun _ => None;
     to_csv_opened := fun _ => false |}.

(** The same machine when the user cancels the open dialog. *)
Definition w_cancelled : World :=
  {| find_spec_pandas := true;
     pip_install := None;
     find_spec_pandas_after := true;
     open_dialog := None;
     read_csv := fun _ => inr T_scenario;
     getuser := "admin";
     save_dialog := None;
     to_csv := fun _ => None;
     to_csv_opened := fun _ => false |}.

(** A machine where the three-row table is read and no file can be
    written. *)
Definition w_read_only : World :=
  {| find_spec_pandas := true;
     pip_install := None;
     find_spec_pandas_after := true;
     open_dialog := Some "inventory.csv";
     read_csv := fun _ => inr T_scenario;
     getuser := "admin";
     save_dialog := Some "out.csv";
     to_csv := fun _ => Some "Permission denied";
     to_csv_opened := fun _ => false |}.


(** A machine without pandas on which pip fails. *)
Definition w_pip_fails : World :=
  {| find_spec_pandas := false;
     pip_install := Some (CalledProcessError "exit status 1");
     find_spec_pandas_after := false;
     open_dialog := Some "inventory.csv";
     read_csv := fun _ => inr T_scenario;
     getuser := "admin";
     save_dialog := None;
     to_csv := fun _ => None;
     to_csv_opened := fun _ => false |}.

End Scenarios.

(** ** The merger of [Python/Merger.py] *)

(** Python orders strings by code point; on names held as their UTF-8
    bytes that is the bytewise lexicographic order. *)
Module StringOrder <: Orders.TotalLeBool.
Definition t : Type := string.
Definition leb : t -> t -> bool := String.leb.
Definition leb_total :
  forall x y : t, leb x y = true \/ leb y x = true := String.leb_total.
End StringOrder.

Module StringSort := Mergesort.Sort StringOrder.

Module Merger.
Import Pandas.

(** The folder as the script sees it. *)
Record Folder : Type := {
  (* [os.listdir(folder_path)]: the names, in any order, or the message of
     the exception *)
  listdir : string + list string;
  (* [os.path.isfile] of the item's path *)
  isfile : string -> bool;
  (* the text read from the item's file when the loop reaches it, or the
     message of the exception that opening or reading it raises *)
  read_text : string -> string + string;
  (* the message of the exception that opening the output file raises, if
     any *)
  open_output : option string;
  (* the message of the exception that [outfile.write] raises, if any,
     given the text written so far and the text to write: a file name that
     UTF-8 cannot encode, a full disk *)
  write_error : string -> string -> option string
}.

Definition newline : ascii := ascii_of_nat 10.

(** [n] line feeds. *)
Fixpoint newlines (n : nat) : string :=
  match n with
  | 0 => EmptyString
  | S n' => String newline (newlines n')
  end.

(** [s.rstrip("\n")]: [s] without the line feeds at its end. *)
Fixpoint rstrip_newlines (s : string) : string :=
  match s with
  | EmptyString => EmptyString
  | String c s' =>
      match rstrip_newlines s' with
      | EmptyString =>
          if Ascii.eqb c newline then EmptyString else String c EmptyString
      | String d t => String c (String d t)
      end
  end.

(** The last character of [s] is a line feed. *)
Fixpoint ends_with_newline (s : string) : bool :=
  match s with
  | EmptyString => false
  | String c EmptyString => Ascii.eqb c newline
  | String _ s' => ends_with_newline s'
  end.

(** The file name in bold, Markdown-style. *)
Definition header (item : string) : string :=
  ("**" ++ item ++ "**" ++ newlines 2)%string.

(** The line breaker written after each file. *)
Definition separator : string :=
  (newlines 2 ++ "---" ++ newlines 2)%string.

(** [outfile.write(text)]: the text is added to what was written, or the
    write raises and adds nothing. *)
Definition write (fs : Folder) (out text : string) : PyExc + string :=
  match write_error fs out text with
  | Some msg => inl (Exception msg)
  | None => inr (out ++ text)%string
  end.

(** The loop over the sorted items: [out] is the text written to the output
    file so far. *)
Fixpoint write_items (fs : Folder) (items : list string) (out : string)
  : (PyExc + unit) * string :=
  match items with
  | [] => (inr tt, out)
  | item :: rest =>
      if isfile fs item then
        match write fs out (header item) with
        | inl e => (inl e, out)
        | inr out =>
            match read_text fs item with
            | inl msg => (inl (Exception msg), out)
            | inr text =>
                match write fs out (rstrip_newlines text) with
                | inl e => (inl e, out)
                | inr out =>
                    match write fs out separator with
                    | inl e => (inl e, out)
                    | inr out => write_items fs rest out
                    end
                end
            end
        end
      else write_items fs rest out
  end.

(** [merge_files_in_folder]: how the call ends, and the text of the output
    file if it was opened. *)
Definition merge_files_in_folder (fs : Folder)
  : (PyExc + unit) * option string :=
  match listdir fs with
  | inl msg => (inl (Exception msg), None)
  | inr names =>
      let items := StringSort.sort names in
      match open_output fs with
      | Some msg => (inl (Exception msg), None)
      | None =>
          let (r, out) := write_items fs items EmptyString in
          (r, Some out)
      end
  end.

(** The same folder listed in another order, or in part. *)
Definition relist (fs : Folder) (names : list string) : Folder :=
  {| listdir := inr names;
     isfile := isfile fs;
     read_text := read_text fs;
     open_output := open_output fs;
     write_error := write_error fs |}.

(** What one readable file contributes to the output. *)
Definition block (fs : Folder) (item : string) : string :=
  match read_text fs item with
  | inr text => (header item ++ rstrip_newlines text ++ separator)%string
  | inl _ => header item
  end.




(** A folder with two files, a sub-folder and a file that cannot be read. *)
Definition demo_folder : Folder :=
  {| listdir := inr ["b.txt"; "sub"; "a.txt"; "z.bin"];
     isfile := fun item => negb (String.eqb item "sub");
     read_text := fun item =>
       if String.eqb item "a.txt" then
         inr ("alpha" ++ newlines 2)%string
       else if String.eqb item "b.txt" then inr "beta"
       else inl "Permission denied";
     open_output := None;
     write_error := fun _ _ => None |}.

(** A folder where the name of the second file holds a byte that is no
    text: Python reads it as a lone surrogate, which UTF-8 does not
    encode. *)
Definition odd_name : string := String (ascii_of_nat 255) ".txt".

Definition odd_folder : Folder :=
  {| listdir := inr [odd_name; "a.txt"];
     isfile := fun _ => true;
     read_text := fun _ => inr "alpha";
     open_output := None;
     write_error := fun _ text =>
       if String.eqb text (header odd_name)
       then Some "'utf-8' codec can't encode character: surrogates not allowed"
       else None |}.

End Merger.

(** ** Facts about the pandas operations *)

Module PandasFacts.
Import Pandas FilterSpec.

Lemma prefix_app (pat s : string) :
  String.prefix pat s = true <-> exists b : string, s = (pat ++ b)%string.
Proof.
  revert s. induction pat as [|c pat IH]; intros s.
  - split; [intros _; exists s; reflexivity | intros _; destruct s; reflexivity].
  - destruct s as [|d s]; simpl.
    + split; [discriminate | intros [b Hb]; discriminate].
    + destruct (Ascii.ascii_dec c d) as [->|Hcd].
      * rewrite IH. split; intros [b Hb]; exists b; congruence.
      * split; [discriminate | intros [b Hb]; congruence].
Qed.

Lemma contains_unfold (pat s : string) :
  contains pat s =
  if String.prefix pat s then true
  else match s with
       | EmptyString => false
       | String _ s' => contains pat s'
       end.
Proof. destruct s; reflexivity. Qed.

(** The search finds exactly the substrings. *)
Lemma contains_occurs (pat s : string) :
  contains pat s = true <-> occurs_in pat s.
Proof.
  split.
  - induction s as [|c s IH]; rewrite contains_unfold;
      destruct (String.prefix pat _) eqn:Hp; intros H; try discriminate.
    + apply prefix_app in Hp as [b Hb]. exists EmptyString, b. exact Hb.
    + apply prefix_app in Hp as [b Hb]. exists EmptyString, b. exact Hb.
    + destruct (IH H) as (a & b & Hab).
      exists (String c a), b. simpl. now rewrite Hab.
  - intros (a & b & Hab). revert s Hab.
    induction a as [|c a IH]; intros s Hab; rewrite contains_unfold.
    + replace (String.prefix pat s) with true; [reflexivity|].
      symmetry. apply prefix_app. exists b. exact Hab.
    + destruct (String.prefix pat s); [reflexivity|].
      subst s. simpl. now apply IH.
Qed.

Lemma scalar_eqb_eq (a b : scalar) : scalar_eqb a b = true <-> a = b.
Proof.
  destruct a as [|s|v], b as [|t|u]; simpl; try (split; congruence);
    rewrite String.eqb_eq; split; congruence.
Qed.

Lemma key_eqb_eq (k1 k2 : list scalar) : key_eqb k1 k2 = true <-> k1 = k2.
Proof.
  revert k2. induction k1 as [|a k1 IH]; intros [|b k2]; simpl;
    try (split; congruence).
  rewrite andb_true_iff, scalar_eqb_eq, IH. split.
  - intros [-> ->]. reflexivity.
  - intros H. injection H as -> ->. split; reflexivity.
Qed.

Lemma key_eqb_refl (k : list scalar) : key_eqb k k = true.
Proof. now apply key_eqb_eq. Qed.

Lemma key_eqb_neq (k1 k2 : list scalar) : key_eqb k1 k2 = false <-> k1 <> k2.
Proof.
  rewrite <- key_eqb_eq. destruct (key_eqb k1 k2); split; congruence.
Qed.

Lemma key_in_In (k : list scalar) (ks : list (list scalar)) :
  key_in k ks = true <-> In k ks.
Proof.
  unfold key_in. rewrite existsb_exists. split.
  - intros (k' & Hin & Heq). apply key_eqb_eq in Heq. now subst.
  - intros Hin. exists k. split; [exact Hin | apply key_eqb_refl].
Qed.

Lemma label_in_In (c : string) (cs : list string) :
  label_in c cs = true <-> In c cs.
Proof.
  unfold label_in. rewrite existsb_exists. split.
  - intros (c' & Hin & Heq). apply String.eqb_eq in Heq. now subst.
  - intros Hin. exists c. split; [exact Hin | apply String.eqb_refl].
Qed.

Lemma index_of_label_in (c : string) (cols : list string) :
  label_in c cols = true <-> exists i, index_of c cols = Some i.
Proof.
  induction cols as [|c' cols IH]; simpl.
  - split; [discriminate | intros [i Hi]; discriminate].
  - destruct (String.eqb c c'); simpl.
    + split; [intros _; now exists 0 | reflexivity].
    + rewrite IH. split; intros [i Hi].
      * exists (S i). now rewrite Hi.
      * destruct (index_of c cols) as [j|]; [now exists j | discriminate].
Qed.

Lemma index_of_absent (c : string) (cols : list string) :
  label_in c cols = false <-> index_of c cols = None.
Proof.
  pose proof (index_of_label_in c cols) as [H1 H2].
  destruct (label_in c cols), (index_of c cols) as [i|]; split; try congruence.
  - intros _. destruct (H1 eq_refl). discriminate.
  - intros _. exfalso. assert (false = true) by (apply H2; now exists i).
    discriminate.
Qed.

(** A label that is not in the index is found right after it. *)
Lemma index_of_snoc (c : string) (cols : list string) :
  label_in c cols = false ->
  index_of c (cols ++ [c]) = Some (List.length cols).
Proof.
  induction cols as [|c' cols IH]; simpl.
  - now rewrite String.eqb_refl.
  - destruct (String.eqb c c'); simpl; [discriminate|].
    intros H. now rewrite (IH H).
Qed.

(** Indexing a list with the flags of its own items is [filter]. *)
Lemma mask_filter_map {A B : Type} (f : B -> bool) (g : A -> B) (l : list A) :
  mask_filter (map f (map g l)) l = filter (fun x => f (g x)) l.
Proof.
  induction l as [|x l IH]; simpl; [reflexivity|].
  rewrite IH. reflexivity.
Qed.

Lemma mask_filter_snoc_false {A : Type} (m : list bool) (l : list A) (x : A) :
  List.length m = List.length l ->
  Forall (fun b => b = true) m ->
  mask_filter (m ++ [false]) (l ++ [x]) = l.
Proof.
  revert l. induction m as [|b m IH]; intros [|y l] Hlen Hall;
    simpl in *; try discriminate; [reflexivity|].
  inversion Hall as [|? ? Hb Hm]; subst.
  rewrite IH; [reflexivity | lia | exact Hm].
Qed.

(** *** Deduplication *)

Lemma filter_filter_comm {A : Type} (f g : A -> bool) (l : list A) :
  filter f (filter g l) = filter g (filter f l).
Proof.
  induction l as [|x l IH]; simpl; [reflexivity|].
  destruct (f x) eqn:Hf, (g x) eqn:Hg; simpl;
    rewrite ?Hf, ?Hg, IH; reflexivity.
Qed.

Lemma filter_filter_absorb {A : Type} (f g : A -> bool) (l : list A) :
  (forall x, In x l -> f x = true -> g x = true) ->
  filter f (filter g l) = filter f l.
Proof.
  induction l as [|x l IH]; simpl; intros H; [reflexivity|].
  destruct (g x) eqn:Hg; simpl.
  - destruct (f x); rewrite IH; auto.
  - destruct (f x) eqn:Hf.
    + rewrite (H x (or_introl eq_refl) Hf) in Hg. discriminate.
    + apply IH. auto.
Qed.

Lemma filter_filter_andb {A : Type} (f g : A -> bool) (l : list A) :
  filter f (filter g l) = filter (fun x => g x && f x) l.
Proof.
  induction l as [|x l IH]; simpl; [reflexivity|].
  destruct (g x); simpl; [destruct (f x)|]; rewrite IH; reflexivity.
Qed.

Lemma NoDup_map_filter {A B : Type} (g : A -> B) (f : A -> bool) (l : list A) :
  NoDup (map g l) -> NoDup (map g (filter f l)).
Proof.
  induction l as [|x l IH]; simpl; intros H; [constructor|].
  inversion H as [|? ? Hnotin Hnd]; subst.
  destruct (f x); simpl; [constructor|]; auto.
  intros Hin. apply Hnotin. apply in_map_iff in Hin as (y & Hy & Hin).
  apply filter_In in Hin as [Hin _]. apply in_map_iff. now exists y.
Qed.

Section Dedup.
Variable key : list scalar -> list scalar.

(** The flags of [duplicated], applied as a mask, give the stable
    deduplication minus the keys already seen. *)
Lemma keep_first_from_dedup (seen : list (list scalar))
    (l : list (list scalar)) :
  keep_first_from key seen l =
  filter (fun r => negb (key_in (key r) seen)) (dedup_first key l).
Proof.
  unfold keep_first_from. revert seen.
  induction l as [|x l IH]; intros seen; simpl; [reflexivity|].
  rewrite IH, filter_filter_andb.
  destruct (key_in (key x) seen) eqn:Hx; simpl.
  - apply filter_ext. intros r. apply negb_orb.
  - f_equal. apply filter_ext. intros r. apply negb_orb.
Qed.

Lemma keep_first_dedup (l : list (list scalar)) :
  keep_first_from key [] l = dedup_first key l.
Proof.
  rewrite keep_first_from_dedup. simpl.
  induction (dedup_first key l) as [|x m IH]; simpl; congruence.
Qed.

Lemma dedup_first_In (l : list (list scalar)) (r : list scalar) :
  In r (dedup_first key l) <-> first_with_key key l r.
Proof.
  revert r. induction l as [|x l IH]; intros r; simpl.
  - split; [intros [] | intros (l1 & l2 & H & _); now destruct l1].
  - rewrite filter_In, negb_true_iff, key_eqb_neq, IH. split.
    + intros [<- | [(l1 & l2 & -> & Hl1) Hne]].
      * exists [], l. split; [reflexivity | intros r' []].
      * exists (x :: l1), l2. split; [reflexivity|].
        intros r' [<- | Hin]; [congruence | now apply Hl1].
    + intros (l1 & l2 & Heq & Hl1). destruct l1 as [|y l1]; simpl in Heq.
      * left. congruence.
      * injection Heq as <- ->. right. split.
        -- exists l1, l2. split; [reflexivity|]. intros r' Hin.
           apply Hl1. now right.
        -- intros Heq. apply (Hl1 x); [now left | congruence].
Qed.

Lemma first_with_key_In (l : list (list scalar)) (r : list scalar) :
  first_with_key key l r -> In r l.
Proof.
  intros (l1 & l2 & -> & _). apply in_or_app. right. now left.
Qed.

Lemma dedup_first_NoDup (l : list (list scalar)) :
  NoDup (map key (dedup_first key l)).
Proof.
  induction l as [|x l IH]; simpl; constructor.
  - intros Hin. apply in_map_iff in Hin as (y & Hy & Hin).
    apply filter_In in Hin as [_ Hne].
    apply negb_true_iff, key_eqb_neq in Hne. congruence.
  - now apply NoDup_map_filter.
Qed.

(** Some record of every key survives. *)
Lemma dedup_first_represents (l : list (list scalar)) (r : list scalar) :
  In r l -> exists r', In r' (dedup_first key l) /\ key r' = key r.
Proof.
  induction l as [|x l IH]; simpl; [intros []|].
  intros [<- | Hin]; [exists x; auto|].
  destruct (IH Hin) as (r' & Hr' & Hk).
  destruct (key_eqb (key r') (key x)) eqn:Hx.
  - apply key_eqb_eq in Hx. exists x. split; [now left | congruence].
  - exists r'. split; [|exact Hk]. right. apply filter_In.
    split; [exact Hr' | now rewrite Hx].
Qed.

(** A filter that looks at keys only commutes with the deduplication. *)
Lemma dedup_first_filter (f : list scalar -> bool) (l : list (list scalar)) :
  (forall r r', key r = key r' -> f r = f r') ->
  dedup_first key (filter f l) = filter f (dedup_first key l).
Proof.
  intros Hf. induction l as [|x l IH]; simpl; [reflexivity|].
  destruct (f x) eqn:Hx; simpl.
  - rewrite IH. f_equal. apply filter_filter_comm.
  - rewrite IH. symmetry. apply filter_filter_absorb.
    intros r _ Hr. apply negb_true_iff, key_eqb_neq.
    intros Heq. rewrite (Hf _ _ Heq) in Hr. congruence.
Qed.
End Dedup.

End PandasFacts.

(** ** Step 4 as a function of the table *)

Module PipelineFacts.
Import Pandas FilterSpec PandasFacts.

Lemma positions_absent (cs cols : list string) :
  absent cs cols <> [] -> positions cs cols = inl (KeyError (absent cs cols)).
Proof.
  unfold positions, absent. destruct (filter _ cs); congruence.
Qed.

Lemma positions_hosts (cols : list string) (i j : nat) :
  index_of "IP" cols = Some i -> index_of "HostName" cols = Some j ->
  positions ["IP"; "HostName"] cols = inr [i; j].
Proof.
  intros Hi Hj. unfold positions. cbn [filter flat_map].
  replace (label_in "IP" cols) with true
    by (symmetry; apply index_of_label_in; eauto).
  replace (label_in "HostName" cols) with true
    by (symmetry; apply index_of_label_in; eauto).
  cbn [negb]. rewrite Hi, Hj. reflexivity.
Qed.

Lemma take_hosts (T : DataFrame) (i j : nat) (r : list scalar) :
  index_of "IP" (columns T) = Some i ->
  index_of "HostName" (columns T) = Some j ->
  take [i; j] r = host_key T r.
Proof.
  intros Hi Hj. unfold host_key, field, take. now rewrite Hi, Hj.
Qed.

Lemma keep_first_from_ext (key key' : list scalar -> list scalar)
    (seen : list (list scalar)) (l : list (list scalar)) :
  (forall r, In r l -> key r = key' r) ->
  keep_first_from key seen l = keep_first_from key' seen l.
Proof.
  intros H. unfold keep_first_from. now rewrite (map_ext_in _ _ _ H).
Qed.

Lemma getitem_name (T : DataFrame) (n : nat) :
  index_of "Name" (columns T) = Some n ->
  getitem T "Name" = inr (map (field T "Name") (rows T)).
Proof.
  intros Hn. unfold getitem. rewrite Hn. f_equal.
  apply map_ext. intros r. unfold field. now rewrite Hn.
Qed.

(** The rows [df.loc[ninja_mask]] selects are those that carry the marker. *)
Lemma ninja_mask_rows (T : DataFrame) :
  mask_filter
    (str_contains "NinjaRMMAgent" false (map (field T "Name") (rows T)))
    (rows T)
  = filter (carries_marker_b T) (rows T).
Proof. unfold str_contains. now rewrite mask_filter_map. Qed.

Lemma str_accessor_text (v : list scalar) :
  str_accessor v =
  if text_column v then inr v
  else inl AttributeError.
Proof. destruct v; reflexivity. Qed.

Lemma marker_keys_pairs (T : DataFrame) (k : list scalar) :
  In k (marker_keys T) -> take [0; 1] k = k.
Proof.
  unfold marker_keys. intros Hin.
  apply in_map_iff in Hin as (r & <- & _). reflexivity.
Qed.

Lemma hosts_frame_In (T : DataFrame) (k : list scalar) :
  In k (rows (hosts_frame T)) <-> In k (marker_keys T).
Proof.
  cbn [hosts_frame rows]. rewrite dedup_first_In. split.
  - apply first_with_key_In.
  - intros Hin.
    destruct (dedup_first_represents (fun k => k) _ _ Hin) as (k' & Hk' & ->).
    now apply dedup_first_In.
Qed.

Lemma hosts_frame_key_in (T : DataFrame) (k : list scalar) :
  key_in k (rows (hosts_frame T)) = key_in k (marker_keys T).
Proof.
  pose proof (hosts_frame_In T k) as H.
  rewrite <- !key_in_In in H.
  destruct (key_in k (rows (hosts_frame T))), (key_in k (marker_keys T));
    try reflexivity; destruct H as [H1 H2];
    [symmetry; now apply H1 | now apply H2].
Qed.

(** Step 4a on a table with the three columns and a text Name column. *)
Lemma step4a_pure_ok (T : DataFrame) (n i j : nat) :
  index_of "Name" (columns T) = Some n ->
  index_of "IP" (columns T) = Some i ->
  index_of "HostName" (columns T) = Some j ->
  text_column (map (field T "Name") (rows T)) = true ->
  step4a_pure T = inr (hosts_frame T).
Proof.
  intros Hn Hi Hj Htext. unfold step4a_pure.
  rewrite (getitem_name T n Hn). cbn [sbind].
  rewrite str_accessor_text, Htext. cbn [sbind].
  unfold loc, str_contains at 1. rewrite !length_map, Nat.eqb_refl.
  cbn [negb]. rewrite (positions_hosts _ i j Hi Hj). cbn [sbind].
  unfold drop_duplicates. cbn [columns rows].
  change (positions ["IP"; "HostName"] ["IP"; "HostName"]) with
    (@inr PyExc _ [0; 1]).
  unfold hosts_frame. f_equal. f_equal.
  rewrite ninja_mask_rows.
  rewrite (map_ext _ _ (fun r => take_hosts T i j r Hi Hj)).
  fold (marker_keys T).
  change (mask_filter _ (marker_keys T))
    with (keep_first_from (take [0; 1]) [] (marker_keys T)).
  rewrite (keep_first_from_ext _ (fun k => k) _ _ (marker_keys_pairs T)).
  apply keep_first_dedup.
Qed.

(** *** The anti-join *)

Lemma filter_nil_existsb {A : Type} (f : A -> bool) (l : list A) :
  filter f l = [] <-> existsb f l = false.
Proof.
  induction l as [|x l IH]; simpl; [tauto|].
  destruct (f x); simpl; [split; discriminate | exact IH].
Qed.

Lemma cell_snoc (r : list scalar) (x : scalar) :
  cell (List.length r) (r ++ [x]) = x.
Proof. unfold cell. apply nth_middle. Qed.

Lemma reserved_merge (cols : list string) :
  existsb reserved_indicator cols = false -> label_in "_merge" cols = false.
Proof.
  intros H. destruct (label_in "_merge" cols) eqn:Hin; [|reflexivity].
  apply label_in_In in Hin. rewrite <- H. symmetry.
  apply existsb_exists. exists "_merge". split; [exact Hin | reflexivity].
Qed.

(** The copies the join makes of one left row, seen through the indicator:
    the row itself when no right key matches it, nothing otherwise. *)
Lemma merge_row_left_only (pl : list nat) (E : list (list scalar))
    (r : list scalar) :
  (forall q, In q E -> take [0; 1] q = q) ->
  filter (fun m => scalar_eqb (cell (List.length r) m) (Str "left_only"))
         (merge_row pl [0; 1] [] E r)
  = if key_in (take pl r) E then [] else [r ++ [Str "left_only"]].
Proof.
  intros HE. unfold merge_row.
  assert (Hf : filter (fun q => key_eqb (take pl r) (take [0; 1] q)) E
               = filter (key_eqb (take pl r)) E).
  { apply filter_ext_in. intros q Hq. now rewrite (HE q Hq). }
  rewrite Hf. unfold key_in.
  destruct (filter (key_eqb (take pl r)) E) as [|q qs] eqn:Hm.
  - apply filter_nil_existsb in Hm. rewrite Hm.
    cbn [map app filter]. rewrite cell_snoc. reflexivity.
  - replace (existsb (key_eqb (take pl r)) E) with true.
    + clear Hm Hf. generalize (q :: qs). intros ms.
      induction ms as [|q' qs' IH]; [reflexivity|].
      cbn [map take app filter]. rewrite cell_snoc.
      change (scalar_eqb (Str "both") (Str "left_only")) with false.
      exact IH.
    + destruct (existsb (key_eqb (take pl r)) E) eqn:Hex; [reflexivity|].
      apply filter_nil_existsb in Hex. congruence.
Qed.

Lemma left_only_rows (pl : list nat) (E : list (list scalar)) (n : nat)
    (rs : list (list scalar)) :
  (forall q, In q E -> take [0; 1] q = q) ->
  Forall (fun r => List.length r = n) rs ->
  filter (fun m => scalar_eqb (cell n m) (Str "left_only"))
         (flat_map (merge_row pl [0; 1] [] E) rs)
  = map (fun r => r ++ [Str "left_only"])
        (filter (fun r => negb (key_in (take pl r) E)) rs).
Proof.
  intros HE Hrect. induction Hrect as [|r rs Hr Hrs IH]; [reflexivity|].
  cbn [flat_map filter]. rewrite filter_app, IH. subst n.
  rewrite (merge_row_left_only pl E r HE).
  destruct (key_in (take pl r) E); reflexivity.
Qed.

(** Dropping the indicator column gives the rows back. *)
Lemma drop_indicator (cols : list string) (x : scalar)
    (rs : list (list scalar)) :
  label_in "_merge" cols = false ->
  Forall (fun r => List.length r = List.length cols) rs ->
  drop {| columns := cols ++ ["_merge"];
          rows := map (fun r => r ++ [x]) rs |} "_merge"
  = inr {| columns := cols; rows := rs |}.
Proof.
  intros Hm Hrect. unfold drop. cbn [columns rows].
  replace (label_in "_merge" (cols ++ ["_merge"])) with true
    by (symmetry; apply label_in_In, in_or_app; right; now left).
  rewrite map_app. cbn [map].
  change (negb (String.eqb "_merge" "_merge")) with false.
  assert (Hall : Forall (fun b => b = true)
                   (map (fun c' => negb (String.eqb c' "_merge")) cols)).
  { apply Forall_forall. intros b Hb.
    apply in_map_iff in Hb as (c & <- & Hc).
    destruct (String.eqb c "_merge") eqn:Hc'; [|reflexivity].
    apply String.eqb_eq in Hc'. subst c.
    apply label_in_In in Hc. congruence. }
  f_equal. f_equal.
  - apply mask_filter_snoc_false; [apply length_map | exact Hall].
  - rewrite map_map. rewrite <- (map_id rs) at 2.
    apply map_ext_in. intros r Hr.
    apply mask_filter_snoc_false; [|exact Hall].
    rewrite length_map. symmetry.
    exact (proj1 (Forall_forall _ _) Hrect r Hr).
Qed.

Lemma merge_hosts (T : DataFrame) (i j : nat) :
  index_of "IP" (columns T) = Some i ->
  index_of "HostName" (columns T) = Some j ->
  merge_left_indicator T (hosts_frame T) ["IP"; "HostName"] =
  if existsb reserved_indicator (columns T) then
    inl ValueError
  else
    inr {| columns := columns T ++ ["_merge"];
           rows := flat_map
                     (merge_row [i; j] [0; 1] [] (rows (hosts_frame T)))
                     (rows T) |}.
Proof.
  intros Hi Hj. unfold merge_left_indicator.
  rewrite (positions_hosts _ i j Hi Hj).
  change (columns (hosts_frame T)) with ["IP"; "HostName"].
  change (positions ["IP"; "HostName"] ["IP"; "HostName"]) with
    (@inr PyExc _ [0; 1]).
  rewrite existsb_app.
  change (existsb reserved_indicator ["IP"; "HostName"]) with false.
  rewrite orb_false_r.
  destruct (existsb reserved_indicator (columns T)); reflexivity.
Qed.

Lemma retained_by_key (T : DataFrame) (i j : nat) :
  index_of "IP" (columns T) = Some i ->
  index_of "HostName" (columns T) = Some j ->
  filter (fun r => negb (key_in (take [i; j] r) (rows (hosts_frame T))))
         (rows T)
  = retained T.
Proof.
  intros Hi Hj. apply filter_ext. intros r.
  rewrite (take_hosts T i j r Hi Hj), hosts_frame_key_in. reflexivity.
Qed.

Lemma retained_rectangular (T : DataFrame) :
  rectangular T ->
  Forall (fun r => List.length r = List.length (columns T)) (retained T).
Proof.
  unfold rectangular, retained. rewrite !Forall_forall.
  intros H r Hr. apply filter_In in Hr as [Hr _]. now apply H.
Qed.

(** Steps 4b and 4c on a rectangular table with the two key columns and no
    reserved label. *)
Lemma step4bc_pure_ok (T : DataFrame) (i j : nat) :
  index_of "IP" (columns T) = Some i ->
  index_of "HostName" (columns T) = Some j ->
  existsb reserved_indicator (columns T) = false ->
  rectangular T ->
  step4bc_pure T (hosts_frame T) = inr (filtered T).
Proof.
  intros Hi Hj Hres Hrect. unfold step4bc_pure, filtered.
  rewrite (merge_hosts T i j Hi Hj), Hres. cbn [sbind].
  pose proof (reserved_merge _ Hres) as Hm.
  unfold getitem. cbn [columns rows].
  rewrite (index_of_snoc _ _ Hm). cbn [sbind].
  unfold getitem_mask, series_eq. cbn [columns rows].
  rewrite !length_map, Nat.eqb_refl. cbn [negb sbind].
  rewrite mask_filter_map.
  rewrite (left_only_rows [i; j] _ (List.length (columns T)) (rows T));
    [| intros q Hq; apply (marker_keys_pairs T), hosts_frame_In, Hq
     | exact Hrect].
  rewrite (retained_by_key T i j Hi Hj).
  rewrite (drop_indicator _ _ _ Hm (retained_rectangular T Hrect)).
  cbn [sbind]. unfold drop_duplicates. cbn [columns rows].
  rewrite (positions_hosts _ i j Hi Hj). f_equal. f_equal.
  change (mask_filter _ (retained T))
    with (keep_first_from (take [i; j]) [] (retained T)).
  rewrite (keep_first_from_ext _ (host_key T) _ _
             (fun r _ => take_hosts T i j r Hi Hj)).
  apply keep_first_dedup.
Qed.

(** *** Step 4 by cases on the schema *)

Lemma columns_ok_inv (T : DataFrame) :
  columns_ok T = true ->
  exists n i j,
    index_of "Name" (columns T) = Some n /\
    index_of "IP" (columns T) = Some i /\
    index_of "HostName" (columns T) = Some j /\
    text_column (map (field T "Name") (rows T)) = true.
Proof.
  unfold columns_ok, required. cbn [forallb].
  rewrite !andb_true_iff. intros [(HN & HI & HH & _) Ht].
  apply index_of_label_in in HN as [n Hn], HI as [i Hi], HH as [j Hj].
  now exists n, i, j.
Qed.

Lemma step4a_pure_cases (T : DataFrame) :
  step4a_pure T =
  if columns_ok T then inr (hosts_frame T) else inl (schema_error T).
Proof.
  destruct (columns_ok T) eqn:Hok.
  - destruct (columns_ok_inv T Hok) as (n & i & j & Hn & Hi & Hj & Ht).
    exact (step4a_pure_ok T n i j Hn Hi Hj Ht).
  - unfold columns_ok, required in Hok. cbn [forallb] in Hok.
    unfold step4a_pure, schema_error.
    destruct (label_in "Name" (columns T)) eqn:HN; cbn [negb].
    + apply index_of_label_in in HN as [n Hn].
      rewrite (getitem_name T n Hn). cbn [sbind]. rewrite str_accessor_text.
      destruct (text_column (map (field T "Name") (rows T))) eqn:Ht;
        cbn [negb sbind]; [|reflexivity].
      unfold loc, str_contains at 1. rewrite !length_map, Nat.eqb_refl.
      cbn [negb].
      assert (Habs : absent ["IP"; "HostName"] (columns T) <> []).
      { unfold absent. cbn [filter].
        destruct (label_in "IP" (columns T)),
                 (label_in "HostName" (columns T)); cbn [negb];
          try discriminate. }
      rewrite (positions_absent _ _ Habs). cbn [sbind].
      destruct (absent ["IP"; "HostName"] (columns T)); congruence.
    + apply index_of_absent in HN. unfold getitem. now rewrite HN.
Qed.

Lemma step4_pure_ok (T : DataFrame) :
  schema_ok T = true -> rectangular T -> step4_pure T = inr (filtered T).
Proof.
  unfold schema_ok. rewrite andb_true_iff, negb_true_iff.
  intros [Hok Hres] Hrect. unfold step4_pure.
  rewrite step4a_pure_cases, Hok. cbn [sbind].
  destruct (columns_ok_inv T Hok) as (n & i & j & Hn & Hi & Hj & Ht).
  exact (step4bc_pure_ok T i j Hi Hj Hres Hrect).
Qed.

Lemma step4_pure_error (T : DataFrame) :
  schema_ok T = false -> step4_pure T = inl (schema_error T).
Proof.
  unfold schema_ok, step4_pure. intros Hbad.
  rewrite step4a_pure_cases.
  destruct (columns_ok T) eqn:Hok; cbn [sbind]; [|reflexivity].
  cbn [andb] in Hbad. apply negb_false_iff in Hbad.
  destruct (columns_ok_inv T Hok) as (n & i & j & Hn & Hi & Hj & Ht).
  unfold step4bc_pure. rewrite (merge_hosts T i j Hi Hj), Hbad.
  cbn [sbind]. unfold schema_error.
  replace (label_in "Name" (columns T)) with true
    by (symmetry; apply index_of_label_in; eauto).
  rewrite Ht. cbn [negb]. unfold absent. cbn [filter].
  replace (label_in "IP" (columns T)) with true
    by (symmetry; apply index_of_label_in; eauto).
  replace (label_in "HostName" (columns T)) with true
    by (symmetry; apply index_of_label_in; eauto).
  reflexivity.
Qed.

End PipelineFacts.

(** ** The script's steps run as their functional reading *)

Module ProcessFacts.
Import Pandas Process CSVNoNinja FilterSpec.
Local Open Scope proc_scope.

Lemma extends_refl (p : Proc) : extends p p.
Proof. exists []. rewrite app_nil_r. now destruct p. Qed.

Lemma extends_trans (p q r : Proc) : extends p q -> extends q r -> extends p r.
Proof.
  intros [n1 ->] [n2 ->]. exists (n1 ++ n2). cbn. now rewrite app_assoc.
Qed.

(** Objects that exist stay what they are. *)
Lemma extends_refers (p p' : Proc) (l : nat) (o : PyObj) :
  extends p p' -> refers l o p -> refers l o p'.
Proof.
  intros [news ->]. unfold refers. cbn. intros H.
  rewrite nth_error_app1; [exact H|].
  apply nth_error_Some. congruence.
Qed.

Lemma alloc_runs (p : Proc) (o : PyObj) :
  exists p', extends p p' /\
             alloc o p = (inr (List.length (heap p)), p') /\
             refers (List.length (heap p)) o p'.
Proof.
  eexists. split; [exists [o]; reflexivity|]. split; [reflexivity|].
  unfold refers. cbn. rewrite nth_error_app2, Nat.sub_diag; [reflexivity|lia].
Qed.

Lemma runs_as_bind {A B A' B' : Type} (m : M A) (f : A -> M A')
    (pure : PyExc + B) (g : B -> PyExc + B') (p : Proc)
    (R : A -> B -> Proc -> Prop) (R' : A' -> B' -> Proc -> Prop) :
  runs_as m p pure R ->
  (forall a b p', extends p p' -> R a b p' -> runs_as (f a) p' (g b) R') ->
  runs_as (bind m f) p (sbind pure g) R'.
Proof.
  intros (p1 & Hext & Hm) Hf. destruct pure as [e|b]; cbn [sbind].
  - exists p1. split; [exact Hext|]. unfold bind. now rewrite Hm.
  - destruct Hm as (a & Hm & HR).
    destruct (Hf a b p1 Hext HR) as (p2 & Hext2 & Hfa).
    exists p2. split; [exact (extends_trans _ _ _ Hext Hext2)|].
    unfold bind. now rewrite Hm.
Qed.

Lemma runs_as_bind_ret {A B : Type} (m : M A) (pure : PyExc + B) (p : Proc)
    (R : A -> B -> Proc -> Prop) :
  runs_as m p pure R -> runs_as (bind m (fun a => ret a)) p pure R.
Proof.
  intros (p1 & Hext & Hm). exists p1. split; [exact Hext|].
  unfold bind, ret. destruct pure as [e|b].
  - now rewrite Hm.
  - destruct Hm as (a & Hm & HR). exists a. now rewrite Hm.
Qed.

(** A method that reads its operands, computes [r] and allocates the
    result. *)
Lemma lift_alloc_runs {B : Type} (r : PyExc + B) (mk : B -> PyObj) (p : Proc) :
  runs_as (bind (lift r) (fun b => alloc (mk b))) p r
          (fun l b p' => refers l (mk b) p').
Proof.
  unfold bind, lift. destruct r as [e|b].
  - exists p. split; [apply extends_refl | reflexivity].
  - destruct (alloc_runs p (mk b)) as (p' & Hext & Hal & Href).
    exists p'. split; [exact Hext|]. eexists. split; [exact Hal | exact Href].
Qed.

Lemma runs_as_ext {A B : Type} (m m' : M A) (p : Proc) (pure : PyExc + B)
    (R : A -> B -> Proc -> Prop) :
  m p = m' p -> runs_as m' p pure R -> runs_as m p pure R.
Proof. unfold runs_as. now intros ->. Qed.

Lemma frame_at_bind {A : Type} (p : Proc) (l : nat) (T : DataFrame)
    (k : DataFrame -> M A) :
  refers_frame l T p -> bind (frame_at l) k p = k T p.
Proof.
  unfold refers_frame, refers, bind, frame_at. now intros ->.
Qed.

Lemma series_at_bind {A : Type} (p : Proc) (l : nat) (v : list scalar)
    (k : list scalar -> M A) :
  refers_series l v p -> bind (series_at l) k p = k v p.
Proof.
  unfold refers_series, refers, bind, series_at. now intros ->.
Qed.

Lemma mask_at_bind {A : Type} (p : Proc) (l : nat) (b : list bool)
    (k : list bool -> M A) :
  refers_mask l b p -> bind (mask_at l) k p = k b p.
Proof.
  unfold refers_mask, refers, bind, mask_at. now intros ->.
Qed.

Lemma alloc_total_runs {B : Type} (b : B) (mk : B -> PyObj) (p : Proc) :
  runs_as (alloc (mk b)) p (@inr PyExc _ b) (fun l b p' => refers l (mk b) p').
Proof.
  destruct (alloc_runs p (mk b)) as (p' & Hext & Hal & Href).
  exists p'. split; [exact Hext|]. eexists. split; [exact Hal | exact Href].
Qed.

Lemma DataFrame_getitem_runs (p : Proc) (df : nat) (T : DataFrame) (c : string) :
  refers_frame df T p ->
  runs_as (DataFrame_getitem df c) p (getitem T c) refers_series.
Proof.
  intros H. eapply runs_as_ext; [exact (frame_at_bind p df T _ H)|].
  exact (lift_alloc_runs (getitem T c) Series p).
Qed.

Lemma Series_str_runs (p : Proc) (s : nat) (v : list scalar) :
  refers_series s v p ->
  runs_as (Series_str s) p (str_accessor v) refers_series.
Proof.
  intros H. eapply runs_as_ext; [exact (series_at_bind p s v _ H)|].
  unfold bind, lift, ret.
  exists p. split; [apply extends_refl|].
  destruct (str_accessor v) as [e|v'] eqn:Hv; [reflexivity|].
  exists s. split; [reflexivity|].
  assert (v' = v) as ->; [|exact H].
  unfold str_accessor in Hv. destruct v; [congruence|].
  destruct (existsb is_str _); congruence.
Qed.

Lemma Str_contains_runs (p : Proc) (s : nat) (v : list scalar)
    (pat : string) (na : bool) :
  refers_series s v p ->
  runs_as (Str_contains s pat na) p
          (@inr PyExc _ (str_contains pat na v)) refers_mask.
Proof.
  intros H. eapply runs_as_ext; [exact (series_at_bind p s v _ H)|].
  exact (alloc_total_runs (str_contains pat na v) BoolSeries p).
Qed.

Lemma DataFrame_loc_runs (p : Proc) (df m : nat) (T : DataFrame)
    (b : list bool) (cs : list string) :
  refers_frame df T p -> refers_mask m b p ->
  runs_as (DataFrame_loc df m cs) p (loc T b cs) refers_frame.
Proof.
  intros H Hm. eapply runs_as_ext; [exact (frame_at_bind p df T _ H)|].
  eapply runs_as_ext; [exact (mask_at_bind p m b _ Hm)|].
  exact (lift_alloc_runs (loc T b cs) Frame p).
Qed.

Lemma DataFrame_drop_duplicates_runs (p : Proc) (df : nat) (T : DataFrame)
    (subset : option (list string)) :
  refers_frame df T p ->
  runs_as (DataFrame_drop_duplicates df subset) p (drop_duplicates T subset)
          refers_frame.
Proof.
  intros H. eapply runs_as_ext; [exact (frame_at_bind p df T _ H)|].
  exact (lift_alloc_runs (drop_duplicates T subset) Frame p).
Qed.

Lemma DataFrame_merge_runs (p : Proc) (l r : nat) (T H : DataFrame)
    (on : list string) :
  refers_frame l T p -> refers_frame r H p ->
  runs_as (DataFrame_merge l r on) p (merge_left_indicator T H on)
          refers_frame.
Proof.
  intros Hl Hr. eapply runs_as_ext; [exact (frame_at_bind p l T _ Hl)|].
  eapply runs_as_ext; [exact (frame_at_bind p r H _ Hr)|].
  exact (lift_alloc_runs (merge_left_indicator T H on) Frame p).
Qed.

Lemma Series_eq_runs (p : Proc) (s : nat) (v : list scalar) (x : string) :
  refers_series s v p ->
  runs_as (Series_eq s x) p (@inr PyExc _ (series_eq v x)) refers_mask.
Proof.
  intros H. eapply runs_as_ext; [exact (series_at_bind p s v _ H)|].
  exact (alloc_total_runs (series_eq v x) BoolSeries p).
Qed.

Lemma DataFrame_getitem_mask_runs (p : Proc) (df m : nat) (T : DataFrame)
    (b : list bool) :
  refers_frame df T p -> refers_mask m b p ->
  runs_as (DataFrame_getitem_mask df m) p (getitem_mask T b) refers_frame.
Proof.
  intros H Hm. eapply runs_as_ext; [exact (frame_at_bind p df T _ H)|].
  eapply runs_as_ext; [exact (mask_at_bind p m b _ Hm)|].
  exact (lift_alloc_runs (getitem_mask T b) Frame p).
Qed.

Lemma DataFrame_drop_runs (p : Proc) (df : nat) (T : DataFrame) (c : string) :
  refers_frame df T p ->
  runs_as (DataFrame_drop df c) p (drop T c) refers_frame.
Proof.
  intros H. eapply runs_as_ext; [exact (frame_at_bind p df T _ H)|].
  exact (lift_alloc_runs (drop T c) Frame p).
Qed.

Lemma runs_as_bind_total {A B A' B' : Type} (m : M A) (f : A -> M A')
    (b : B) (pure' : PyExc + B') (p : Proc)
    (R : A -> B -> Proc -> Prop) (R' : A' -> B' -> Proc -> Prop) :
  runs_as m p (inr b) R ->
  (forall a p', extends p p' -> R a b p' -> runs_as (f a) p' pure' R') ->
  runs_as (bind m f) p pure' R'.
Proof.
  intros (p1 & Hext & a & Hm & HR) Hf.
  destruct (Hf a p1 Hext HR) as (p2 & Hext2 & Hfa).
  exists p2. split; [exact (extends_trans _ _ _ Hext Hext2)|].
  unfold bind. now rewrite Hm.
Qed.

(** Step 4a runs as [step4a_pure]. *)
Lemma main_step4a_runs (p : Proc) (df : nat) (T : DataFrame) :
  refers_frame df T p ->
  runs_as (main_step4a df) p (step4a_pure T) refers_frame.
Proof.
  intros Hdf. unfold main_step4a, step4a_pure.
  eapply runs_as_bind; [exact (DataFrame_getitem_runs p df T "Name" Hdf)|].
  intros name v p1 E1 Hname.
  eapply runs_as_bind; [exact (Series_str_runs p1 name v Hname)|].
  intros name_str v' p2 E2 Hstr.
  eapply runs_as_bind_total;
    [exact (Str_contains_runs p2 name_str v' "NinjaRMMAgent" false Hstr)|].
  intros ninja_mask p3 E3 Hmask.
  pose proof (extends_refers _ _ _ _
                (extends_trans _ _ _ E1 (extends_trans _ _ _ E2 E3)) Hdf)
    as Hdf3.
  eapply runs_as_bind;
    [exact (DataFrame_loc_runs p3 df ninja_mask T _ ["IP"; "HostName"]
              Hdf3 Hmask)|].
  intros sel S p4 E4 Hsel.
  apply runs_as_bind_ret.
  exact (DataFrame_drop_duplicates_runs p4 sel S None Hsel).
Qed.

(** Steps 4b and 4c run as [step4bc_pure]. *)
Lemma main_step4bc_runs (p : Proc) (df hosts : nat) (T H : DataFrame) :
  refers_frame df T p -> refers_frame hosts H p ->
  runs_as (main_step4bc df hosts) p (step4bc_pure T H) refers_frame.
Proof.
  intros Hdf Hh. unfold main_step4bc, step4bc_pure.
  eapply runs_as_bind;
    [exact (DataFrame_merge_runs p df hosts T H _ Hdf Hh)|].
  intros merged Mg p1 E1 Hmerged.
  eapply runs_as_bind;
    [exact (DataFrame_getitem_runs p1 merged Mg "_merge" Hmerged)|].
  intros indicator v p2 E2 Hind.
  eapply runs_as_bind_total;
    [exact (Series_eq_runs p2 indicator v "left_only" Hind)|].
  intros left_only p3 E3 Hlo.
  pose proof (extends_refers _ _ _ _ (extends_trans _ _ _ E2 E3) Hmerged)
    as Hmerged3.
  eapply runs_as_bind;
    [exact (DataFrame_getitem_mask_runs p3 merged left_only Mg _
              Hmerged3 Hlo)|].
  intros selected S p4 E4 Hsel.
  eapply runs_as_bind; [exact (DataFrame_drop_runs p4 selected S "_merge" Hsel)|].
  intros df_no_ninja D p5 E5 Hd.
  apply runs_as_bind_ret.
  exact (DataFrame_drop_duplicates_runs p5 df_no_ninja D _ Hd).
Qed.

(** Step 4 runs as [step4_pure]. *)
Lemma main_step4_runs (p : Proc) (df : nat) (T : DataFrame) :
  refers_frame df T p ->
  runs_as (main_step4 df) p (step4_pure T) refers_frame.
Proof.
  intros Hdf. unfold main_step4, step4_pure.
  eapply runs_as_bind; [exact (main_step4a_runs p df T Hdf)|].
  intros hosts H p1 E1 Hh.
  exact (main_step4bc_runs p1 df hosts T H
           (extends_refers _ _ _ _ E1 Hdf) Hh).
Qed.

(** The frame a run refers to is the outcome of the functional reading. *)
Lemma runs_as_deref (m : M nat) (p : Proc) (pure : PyExc + DataFrame) :
  runs_as m p pure refers_frame -> deref (m p) = pure.
Proof.
  intros (p' & _ & Hm). unfold deref. destruct pure as [e|f].
  - now rewrite Hm.
  - destruct Hm as (l & -> & Hl). unfold refers_frame, refers in Hl.
    now rewrite Hl.
Qed.

Lemma holding_refers (T : DataFrame) : refers_frame 0 T (holding T).
Proof. reflexivity. Qed.

Lemma filter_pipeline_pure (T : DataFrame) : filter_pipeline T = step4_pure T.
Proof.
  apply runs_as_deref, main_step4_runs, holding_refers.
Qed.

Lemma exclusion_frame_pure (T : DataFrame) : exclusion_frame T = step4a_pure T.
Proof.
  apply runs_as_deref, main_step4a_runs, holding_refers.
Qed.

End ProcessFacts.

(** ** The steps of [main] around the filter *)

Module MainFacts.
Import Pandas Process CSVNoNinja FilterSpec ProcessFacts.
Local Open Scope proc_scope.

Lemma bind_inr {A B : Type} (m : M A) (f : A -> M B) (p p' : Proc) (a : A) :
  m p = (inr a, p') -> bind m f p = f a p'.
Proof. unfold bind. now intros ->. Qed.

Lemma bind_inl {A B : Type} (m : M A) (f : A -> M B) (p p' : Proc)
    (e : PyExc) :
  m p = (inl e, p') -> bind m f p = (inl e, p').
Proof. unfold bind. now intros ->. Qed.

Lemma ensure_ready (w : World) (p : Proc) :
  pandas_ready w = true ->
  ensure_pandas_installed w p = (inr tt, printing p (install_lines w)).
Proof.
  unfold pandas_ready, ensure_pandas_installed, install_lines, printing.
  destruct (find_spec_pandas w); cbn [negb orb].
  - reflexivity.
  - destruct (pip_install w); cbn [andb]; [discriminate|].
    destruct (find_spec_pandas_after w); [|discriminate]. intros _.
    unfold bind, try_except, print, ret. cbn. now rewrite <- app_assoc.
Qed.

Lemma ensure_not_ready (w : World) (p : Proc) :
  pandas_ready w = false ->
  exists e p', ensure_pandas_installed w p = (inl e, p')
               /\ files p' = files p /\ damaged p' = damaged p.
Proof.
  unfold pandas_ready, ensure_pandas_installed.
  destruct (find_spec_pandas w); cbn [negb orb]; [discriminate|].
  unfold bind, try_except, print, ret, sys_exit, raise.
  destruct (pip_install w) as [e|]; cbn [andb].
  - intros _. cbn. destruct (is_CalledProcessError e); cbn; eauto.
  - destruct (find_spec_pandas_after w); [discriminate|]. intros _.
    cbn. eauto.
Qed.

Lemma main_step2_chosen (w : World) (p : Proc) :
  truthy (open_dialog w) = true ->
  main_step2 w p = (inr (or_empty (open_dialog w)), p).
Proof.
  intros H. unfold main_step2, windows_file_dialog_open, bind, ret.
  now rewrite H.
Qed.

Lemma main_step2_cancelled (w : World) (p : Proc) :
  truthy (open_dialog w) = false ->
  main_step2 w p
  = (inl (SystemExit 0), printing p ["No file selected. Exiting."]).
Proof.
  intros H. unfold main_step2, windows_file_dialog_open, bind, ret.
  now rewrite H.
Qed.

Lemma main_step3_read (w : World) (path : string) (T : DataFrame) (p : Proc) :
  read_csv w path = inr T ->
  main_step3 w path p
  = (inr (List.length (heap p)),
     {| heap := heap p ++ [Frame T]; stdout := stdout p; files := files p;
        damaged := damaged p |}).
Proof.
  intros H. unfold main_step3, try_except, pd_read_csv. now rewrite H.
Qed.

Lemma main_step3_failed (w : World) (path msg : string) (p : Proc) :
  read_csv w path = inl msg ->
  main_step3 w path p
  = (inl (SystemExit 1),
     printing p [("Error reading CSV from " ++ path ++ ":" ++ nl ++ msg)%string]).
Proof.
  intros H. unfold main_step3, try_except, pd_read_csv. now rewrite H.
Qed.

Lemma main_step567_runs (w : World) (l : nat) (O : DataFrame) (p : Proc) :
  refers_frame l O p ->
  main_step567 w l p =
  match to_csv w (save_path w) with
  | Some msg =>
      (inl (SystemExit 1),
       printing (spoiling w (save_path w) p)
                [("Failed to save CSV: " ++ msg)%string])
  | None =>
      (inr tt,
       {| heap := heap p;
          stdout := stdout p
                    ++ [("Filtered CSV saved to: " ++ save_path w)%string];
          files := files p ++ [(save_path w, O)];
          damaged := damaged p |})
  end.
Proof.
  intros H. unfold refers_frame, refers in H.
  unfold main_step567, windows_file_dialog_save, DataFrame_to_csv, save_path.
  unfold bind, ret, try_except, frame_at. rewrite H.
  destruct (to_csv w _); reflexivity.
Qed.

(** [main] from the reading of the table on. *)
Lemma main_at_filter (w : World) (T : DataFrame) :
  pandas_ready w = true ->
  truthy (open_dialog w) = true ->
  read_csv w (or_empty (open_dialog w)) = inr T ->
  main w fresh
  = bind (main_step4 0) (main_step567 w)
         {| heap := [Frame T]; stdout := install_lines w; files := [];
              damaged := [] |}.
Proof.
  intros Hready Hopen Hread. unfold main.
  rewrite (bind_inr _ _ _ _ _ (ensure_ready w fresh Hready)).
  rewrite (bind_inr _ _ _ _ _ (main_step2_chosen w _ Hopen)).
  rewrite (bind_inr _ _ _ _ _ (main_step3_read w _ T _ Hread)).
  reflexivity.
Qed.

Lemma run_main_written (w : World) :
  written (run_main w) = files (snd (main w fresh)).
Proof.
  unfold run_main. destruct (main w fresh) as [[e|u] p]; [|reflexivity].
  destruct e; reflexivity.
Qed.

(** An exception other than [SystemExit] that escapes [main] ends the
    process with status 1 and its traceback. *)
Lemma run_main_uncaught (w : World) (e : PyExc) (p : Proc) :
  main w fresh = (inl e, p) -> is_Exception e = true ->
  run_main w = {| status := 1; printed := stdout p; written := files p;
                  traceback := Some e |}.
Proof.
  intros Hm He. unfold run_main. rewrite Hm.
  destruct e; [discriminate | reflexivity ..].
Qed.

Lemma runs_as_extends {A B : Type} (m : M A) (p : Proc) (pure : PyExc + B)
    (R : A -> B -> Proc -> Prop) :
  runs_as m p pure R -> extends p (snd (m p)).
Proof.
  intros (p' & Hext & Hm). destruct pure as [e|b].
  - now rewrite Hm.
  - destruct Hm as (a & -> & _). exact Hext.
Qed.


End MainFacts.

(** ** The notions of the specification, decided *)

Module SpecFacts.
Import Pandas Process CSVNoNinja FilterSpec PandasFacts PipelineFacts
  ProcessFacts.

Lemma carries_marker_iff (T : DataFrame) (r : list scalar) :
  carries_marker_b T r = true <-> carries_marker T r.
Proof.
  unfold carries_marker_b, carries_marker.
  destruct (field T "Name" r) as [|s|v].
  - split; [discriminate | intros (s & H & _); discriminate].
  - unfold marker at 1. rewrite contains_occurs. split.
    + intros H. now exists s.
    + intros (s' & Hs & H). now injection Hs as ->.
  - split; [discriminate | intros (s & H & _); discriminate].
Qed.

Lemma marker_keys_iff (T : DataFrame) (k : list scalar) :
  In k (marker_keys T) <-> ExclusionSet T k.
Proof.
  unfold marker_keys, ExclusionSet. rewrite in_map_iff. split.
  - intros (r & Hk & Hr). apply filter_In in Hr as [Hr Hm].
    exists r. now rewrite <- carries_marker_iff.
  - intros (r & Hr & Hm & Hk). exists r. split; [exact Hk|].
    apply filter_In. now rewrite carries_marker_iff.
Qed.

Lemma excluded_iff (T : DataFrame) (r : list scalar) :
  excluded_b T r = true <-> ExclusionSet T (host_key T r).
Proof. unfold excluded_b. now rewrite key_in_In, marker_keys_iff. Qed.

Lemma not_excluded_iff (T : DataFrame) (r : list scalar) :
  negb (excluded_b T r) = true <-> ~ ExclusionSet T (host_key T r).
Proof.
  rewrite <- excluded_iff. destruct (excluded_b T r); cbn; split; congruence.
Qed.

Lemma excluded_b_key (T : DataFrame) (r r' : list scalar) :
  host_key T r = host_key T r' ->
  negb (excluded_b T r) = negb (excluded_b T r').
Proof. unfold excluded_b. now intros ->. Qed.

Lemma retained_In (T : DataFrame) (r : list scalar) :
  In r (retained T) <-> In r (rows T) /\ ~ ExclusionSet T (host_key T r).
Proof. unfold retained. now rewrite filter_In, not_excluded_iff. Qed.

(** The records of the returned table, found in the input. *)
Lemma filtered_In (T : DataFrame) (r : list scalar) :
  In r (rows (filtered T)) <->
  first_with_key (host_key T) (rows T) r
  /\ ~ ExclusionSet T (host_key T r).
Proof.
  cbn [filtered rows]. unfold retained.
  rewrite (dedup_first_filter _ _ _ (excluded_b_key T)).
  rewrite filter_In, dedup_first_In, not_excluded_iff. reflexivity.
Qed.

(** When step 4 returns, the table was within the schema and the result is
    [filtered]. *)
Lemma filter_pipeline_inv (T out : DataFrame) :
  rectangular T -> filter_pipeline T = inr out ->
  schema_ok T = true /\ out = filtered T.
Proof.
  intros Hrect. rewrite filter_pipeline_pure.
  destruct (schema_ok T) eqn:Hok.
  - rewrite (step4_pure_ok T Hok Hrect). intros [= <-]. now split.
  - rewrite (step4_pure_error T Hok). discriminate.
Qed.

(** Step 4 returns on every rectangular table within the schema. *)
Lemma filter_pipeline_ok (T : DataFrame) :
  rectangular T -> schema_ok T = true -> filter_pipeline T = inr (filtered T).
Proof.
  intros Hrect Hok. rewrite filter_pipeline_pure.
  exact (step4_pure_ok T Hok Hrect).
Qed.

Lemma exclusion_frame_inv (T E : DataFrame) :
  exclusion_frame T = inr E -> columns_ok T = true /\ E = hosts_frame T.
Proof.
  rewrite exclusion_frame_pure, step4a_pure_cases.
  destruct (columns_ok T); [intros [= <-]; now split | discriminate].
Qed.

Lemma filter_all {A : Type} (f : A -> bool) (l : list A) :
  (forall x, In x l -> f x = true) -> filter f l = l.
Proof.
  induction l as [|x l IH]; cbn; intros H; [reflexivity|].
  rewrite (H x (or_introl eq_refl)). f_equal. apply IH. auto.
Qed.

(** Without a marked record nothing is excluded. *)
Lemma retained_all (T : DataFrame) :
  (forall r, In r (rows T) -> ~ carries_marker T r) -> retained T = rows T.
Proof.
  intros H. unfold retained. apply filter_all. intros r Hr.
  apply not_excluded_iff. intros (m & Hm & Hc & _). exact (H m Hm Hc).
Qed.

Lemma carries_marker_b_named (T : DataFrame) (r : list scalar) :
  carries_marker_b T r = true -> is_str (field T "Name" r) = true.
Proof.
  unfold carries_marker_b.
  destruct (field T "Name" r); [discriminate | reflexivity | discriminate].
Qed.

Lemma text_column_named (f : list scalar -> scalar) (l : list (list scalar)) :
  text_column (map f (filter (fun r => is_str (f r)) l)) = true.
Proof.
  induction l as [|x l IH]; cbn; [reflexivity|].
  destruct (is_str (f x)) eqn:Hx; [|exact IH].
  cbn. now rewrite Hx.
Qed.

(** The records without a Name contribute nothing to [hosts_with_ninja]. *)
Lemma hosts_frame_named_only (T : DataFrame) :
  hosts_frame (named_only T) = hosts_frame T.
Proof.
  unfold hosts_frame, marker_keys. do 3 f_equal.
  change (filter (carries_marker_b (named_only T)) (rows (named_only T)))
    with (filter (carries_marker_b T)
            (filter (fun r => is_str (field T "Name" r)) (rows T))).
  apply filter_filter_absorb. intros r _. apply carries_marker_b_named.
Qed.



Lemma NoDup_map_eq {A B : Type} (f : A -> B) (l : list A) (x y : A) :
  NoDup (map f l) -> In x l -> In y l -> f x = f y -> x = y.
Proof.
  induction l as [|a l IH]; cbn; [intros _ []|].
  intros Hnd Hx Hy Hf. inversion Hnd as [|? ? Hnotin Hnd']; subst.
  destruct Hx as [<- | Hx], Hy as [<- | Hy]; auto.
  - exfalso. apply Hnotin. rewrite Hf. now apply in_map.
  - exfalso. apply Hnotin. rewrite <- Hf. now apply in_map.
Qed.

Lemma columns_ok_named_only (T : DataFrame) :
  columns_ok T = true -> columns_ok (named_only T) = true.
Proof.
  unfold columns_ok. rewrite !andb_true_iff. intros [Hc _].
  split; [exact Hc|].
  exact (text_column_named (field T "Name") (rows T)).
Qed.

End SpecFacts.

(** ** The properties of the filter *)

Import Pandas Process CSVNoNinja FilterSpec Scenarios.
Import PandasFacts PipelineFacts ProcessFacts MainFacts SpecFacts.

(** The search is exact about case. *)
Example contains_case_sensitive :
  contains marker "NinjaRMMAgent.exe" = true
  /\ contains marker "ninjarmmagent.exe" = false
  /\ contains marker "NINJARMMAGENT" = false.
Proof. repeat split; reflexivity. Qed.

(** C1, as amended.  A record belongs to the output of the filter exactly
    when it is a record of the input whose (IP, HostName) pair is not in
    ExclusionSet and no earlier record of the input has the same pair. *)
Theorem output_membership (T out : DataFrame) :
  rectangular T -> filter_pipeline T = inr out ->
  forall r : list scalar,
    In r (rows out) <->
    In r (rows T)
    /\ ~ ExclusionSet T (host_key T r)
    /\ first_with_key (host_key T) (rows T) r.
Proof.
  intros Hrect Hout r.
  destruct (filter_pipeline_inv T out Hrect Hout) as [_ ->].
  rewrite filtered_In. split.
  - intros [Hfirst Hex]. repeat split; try assumption.
    exact (first_with_key_In _ _ _ Hfirst).
  - intros (_ & Hex & Hfirst). now split.
Qed.

Lemma output_membership_witness :
  In [Str "chrome.exe"; Str "10.0.0.2"; Str "B"]
     [[Str "chrome.exe"; Str "10.0.0.2"; Str "B"]] <->
  In [Str "chrome.exe"; Str "10.0.0.2"; Str "B"] (rows T_scenario)
  /\ ~ ExclusionSet T_scenario
        (host_key T_scenario [Str "chrome.exe"; Str "10.0.0.2"; Str "B"])
  /\ first_with_key (host_key T_scenario) (rows T_scenario)
        [Str "chrome.exe"; Str "10.0.0.2"; Str "B"].
Proof.
  apply (output_membership T_scenario
           (inventory [[Str "chrome.exe"; Str "10.0.0.2"; Str "B"]])).
  - repeat constructor.
  - reflexivity.
Defined.

(** C1 as stated fails: of two records of one host that does not run the
    agent, the second has its pair outside ExclusionSet and yet is not in
    the output. *)
Lemma output_membership_counterexample :
  exists (out : DataFrame) (r : list scalar),
    filter_pipeline T_two_processes = inr out
    /\ In r (rows T_two_processes)
    /\ ~ (In r (rows out) <->
          ~ ExclusionSet T_two_processes (host_key T_two_processes r)).
Proof.
  exists (inventory [[Str "chrome.exe"; Str "10.0.0.1"; Str "A"]]),
         [Str "firefox.exe"; Str "10.0.0.1"; Str "A"].
  split; [reflexivity|]. split; [right; left; reflexivity|].
  intros [_ H].
  assert (Hin : In [Str "firefox.exe"; Str "10.0.0.1"; Str "A"]
                   (rows (inventory [[Str "chrome.exe"; Str "10.0.0.1";
                                      Str "A"]]))).
  { apply H. rewrite <- excluded_iff. discriminate. }
  destruct Hin as [Heq | []]. discriminate.
Qed.

(** C3.  The output has at most one record per (IP, HostName) pair; it is
    the stable deduplication of the records retained by the anti-join, and
    each of its records is the first of the retained ones, and of the
    input, with its pair. *)
Theorem one_record_per_host (T out : DataFrame) :
  rectangular T -> filter_pipeline T = inr out ->
  NoDup (map (host_key T) (rows out))
  /\ rows out = dedup_first (host_key T) (retained T)
  /\ forall r : list scalar,
       In r (rows out) ->
       first_with_key (host_key T) (retained T) r
       /\ first_with_key (host_key T) (rows T) r.
Proof.
  intros Hrect Hout.
  destruct (filter_pipeline_inv T out Hrect Hout) as [_ ->].
  split; [apply dedup_first_NoDup|]. split; [reflexivity|].
  intros r Hr. split.
  - now apply dedup_first_In.
  - now apply filtered_In in Hr.
Qed.

Lemma one_record_per_host_witness :
  NoDup (map (host_key T_missing_keys)
             [[Str "chrome.exe"; NaN; NaN];
              [Str "ninjarmmagent.exe"; Str "10.0.0.9"; NaN]])
  /\ [[Str "chrome.exe"; NaN; NaN];
      [Str "ninjarmmagent.exe"; Str "10.0.0.9"; NaN]]
     = dedup_first (host_key T_missing_keys) (retained T_missing_keys)
  /\ forall r : list scalar,
       In r [[Str "chrome.exe"; NaN; NaN];
             [Str "ninjarmmagent.exe"; Str "10.0.0.9"; NaN]] ->
       first_with_key (host_key T_missing_keys) (retained T_missing_keys) r
       /\ first_with_key (host_key T_missing_keys) (rows T_missing_keys) r.
Proof.
  apply (one_record_per_host T_missing_keys
           (inventory [[Str "chrome.exe"; NaN; NaN];
                       [Str "ninjarmmagent.exe"; Str "10.0.0.9"; NaN]])).
  - repeat constructor.
  - reflexivity.
Defined.

(** C5.  The three-row scenario gives the single record of host B. *)
Theorem scenario_three_rows :
  filter_pipeline T_scenario
  = inr {| columns := ["Name"; "IP"; "HostName"];
           rows := [[Str "chrome.exe"; Str "10.0.0.2"; Str "B"]] |}.
Proof. reflexivity. Qed.

(** C2.  The frame [hosts_with_ninja] of step 4a holds, without repetition,
    exactly the (IP, HostName) pairs of the records whose Name is present
    and contains the marker, compared character by character; the records
    whose Name is missing play no part in it, whatever their pair. *)
Theorem exclusion_set_exact (T E : DataFrame) :
  exclusion_frame T = inr E ->
  columns E = ["IP"; "HostName"]
  /\ NoDup (rows E)
  /\ (forall k : list scalar, In k (rows E) <-> ExclusionSet T k)
  /\ (forall k : list scalar,
        In k (rows E) ->
        exists (r : list scalar) (s : string),
          In r (rows T) /\ host_key T r = k
          /\ field T "Name" r = Str s /\ contains "NinjaRMMAgent" s = true)
  /\ exclusion_frame (named_only T) = inr E.
Proof.
  intros HE. destruct (exclusion_frame_inv T E HE) as [Hok ->].
  split; [reflexivity|]. split.
  { rewrite <- (map_id (rows (hosts_frame T))).
    exact (dedup_first_NoDup (fun k => k) (marker_keys T)). }
  split.
  { intros k. now rewrite hosts_frame_In, marker_keys_iff. }
  split.
  { intros k Hk. apply hosts_frame_In in Hk. unfold marker_keys in Hk.
    apply in_map_iff in Hk as (r & Hkey & Hr).
    apply filter_In in Hr as [Hr Hm]. unfold carries_marker_b in Hm.
    destruct (field T "Name" r) as [|s|v] eqn:Hname;
      [discriminate | | discriminate].
    exists r, s. auto. }
  rewrite exclusion_frame_pure, step4a_pure_cases.
  rewrite (columns_ok_named_only T Hok).
  now rewrite hosts_frame_named_only.
Qed.

Lemma exclusion_set_exact_witness :
  ["IP"; "HostName"] = ["IP"; "HostName"]
  /\ NoDup [[NaN; Str "A"]]
  /\ (forall k : list scalar,
        In k [[NaN; Str "A"]] <-> ExclusionSet T_missing_keys k)
  /\ (forall k : list scalar,
        In k [[NaN; Str "A"]] ->
        exists (r : list scalar) (s : string),
          In r (rows T_missing_keys) /\ host_key T_missing_keys r = k
          /\ field T_missing_keys "Name" r = Str s
          /\ contains "NinjaRMMAgent" s = true)
  /\ exclusion_frame (named_only T_missing_keys)
     = inr {| columns := ["IP"; "HostName"]; rows := [[NaN; Str "A"]] |}.
Proof.
  apply (exclusion_set_exact T_missing_keys
           {| columns := ["IP"; "HostName"]; rows := [[NaN; Str "A"]] |}).
  reflexivity.
Defined.

(** Where step 4 runs to its end, the claim C4 holds.  On a table that has
    the three columns, strings in its Name column and no column labelled
    as an indicator of [merge], and in which no record's Name contains the
    marker, the anti-join retains every record and the output is the table
    deduplicated by (IP, HostName), in the original order. *)
Theorem no_marker_dedup (T : DataFrame) :
  rectangular T -> schema_ok T = true ->
  (forall r : list scalar, In r (rows T) -> ~ carries_marker T r) ->
  retained T = rows T
  /\ filter_pipeline T
     = inr {| columns := columns T;
              rows := dedup_first (host_key T) (rows T) |}.
Proof.
  intros Hrect Hok Hnone. pose proof (retained_all T Hnone) as Hret.
  split; [exact Hret|].
  rewrite (filter_pipeline_ok T Hrect Hok). unfold filtered.
  now rewrite Hret.
Qed.

Lemma no_marker_dedup_witness :
  retained T_two_processes = rows T_two_processes
  /\ filter_pipeline T_two_processes
     = inr {| columns := columns T_two_processes;
              rows := dedup_first (host_key T_two_processes)
                                  (rows T_two_processes) |}.
Proof.
  apply (no_marker_dedup T_two_processes).
  - repeat constructor.
  - reflexivity.
  - intros r Hr Hc. apply carries_marker_iff in Hc.
    destruct Hr as [<- | [<- | []]]; discriminate.
Defined.

(** C4.  The table whose only record has no Name.  No record carries the
    marker and the table is its own deduplication, which the claim gives
    for output.  [read_csv] types the Name column float64, [.str] of line
    192 raises, and [main] ends with status 1 and the traceback, without
    output.  On the same line [na=False] counts a missing Name as a Name
    without the marker: the missing Names were meant to go through. *)
Theorem unnamed_table_raises :
  rectangular T_unnamed
  /\ (forall r : list scalar,
        In r (rows T_unnamed) -> ~ carries_marker T_unnamed r)
  /\ dedup_first (host_key T_unnamed) (rows T_unnamed) = rows T_unnamed
  /\ filter_pipeline T_unnamed = inl AttributeError
  /\ run_main (world_reading (inr T_unnamed))
     = {| status := 1;
          printed := ["Module 'pandas' is already installed."];
          written := [];
          traceback := Some AttributeError |}.
Proof.
  split; [repeat constructor|]. split.
  - intros r Hr Hc. apply carries_marker_iff in Hc.
    destruct Hr as [<- | []]. discriminate.
  - repeat split; reflexivity.
Qed.

(** The same happens when every Name is a number: the column is int64. *)
Example numeric_names_raise :
  (forall r : list scalar,
     In r (rows T_numeric_names) -> ~ carries_marker T_numeric_names r)
  /\ filter_pipeline T_numeric_names = inl AttributeError.
Proof.
  split; [|reflexivity].
  intros r Hr Hc. apply carries_marker_iff in Hc.
  destruct Hr as [<- | [<- | []]]; discriminate.
Qed.

(** A table that already has a column labelled [_merge] carries no marker
    either, and [merge] refuses it, the label being the one it gives to
    its indicator column. *)
Example merge_column_refused :
  (forall r : list scalar,
     In r (rows T_merge_column) -> ~ carries_marker T_merge_column r)
  /\ filter_pipeline T_merge_column = inl ValueError.
Proof.
  split; [|reflexivity].
  intros r Hr Hc. apply carries_marker_iff in Hc.
  destruct Hr as [<- | []]. discriminate.
Qed.




(** A table that lacks IP and whose names are numbers: [.str] of line 192
    raises before line 193 looks for IP. *)
Example numeric_names_raise_first :
  filter_pipeline T_no_ip_numeric = inl AttributeError
  /\ schema_error T_no_ip_numeric = AttributeError.
Proof. split; reflexivity. Qed.

(** C7.  When the read of the chosen file fails, [main] prints the message
    of the failure after the name of the file and exits with status 1; it
    neither goes on to the filter nor writes a file. *)
Theorem read_failure_fatal (w : World) (msg : string) :
  pandas_ready w = true ->
  truthy (open_dialog w) = true ->
  read_csv w (or_empty (open_dialog w)) = inl msg ->
  run_main w
  = {| status := 1;
       printed := install_lines w
                  ++ [("Error reading CSV from " ++ or_empty (open_dialog w)
                         ++ ":" ++ nl ++ msg)%string];
       written := [];
       traceback := None |}.
Proof.
  intros Hready Hopen Hread. unfold run_main, main.
  rewrite (bind_inr _ _ _ _ _ (ensure_ready w fresh Hready)).
  rewrite (bind_inr _ _ _ _ _ (main_step2_chosen w _ Hopen)).
  rewrite (bind_inl _ _ _ _ _ (main_step3_failed w _ msg _ Hread)).
  reflexivity.
Qed.

Lemma read_failure_fatal_witness :
  run_main (world_reading (inl "'charmap' codec can't decode byte 0x81"))
  = {| status := 1;
       printed := ["Module 'pandas' is already installed.";
                   ("Error reading CSV from inventory.csv:" ++ nl
                      ++ "'charmap' codec can't decode byte 0x81")%string];
       written := [];
       traceback := None |}.
Proof.
  apply (read_failure_fatal
           (world_reading (inl "'charmap' codec can't decode byte 0x81")));
    reflexivity.
Defined.

(** C8.  The outcome of step 4 depends on the table alone: run from any two
    processes that hold the same table, under whatever references, it gives
    the same table or the same exception; so does a second run in the
    process the first run left. *)
Theorem filter_deterministic (T : DataFrame) (p1 p2 : Proc) (l1 l2 : nat) :
  refers_frame l1 T p1 -> refers_frame l2 T p2 ->
  deref (main_step4 l1 p1) = deref (main_step4 l2 p2)
  /\ deref (main_step4 l1 (snd (main_step4 l1 p1)))
     = deref (main_step4 l1 p1).
Proof.
  intros H1 H2.
  pose proof (main_step4_runs p1 l1 T H1) as R1.
  pose proof (main_step4_runs p2 l2 T H2) as R2.
  rewrite (runs_as_deref _ _ _ R1), (runs_as_deref _ _ _ R2).
  split; [reflexivity|].
  apply runs_as_deref, main_step4_runs.
  exact (extends_refers _ _ _ _ (runs_as_extends _ _ _ _ R1) H1).
Qed.

Lemma filter_deterministic_witness :
  deref (main_step4 0 (holding T_scenario))
  = deref (main_step4 1 {| heap := [Series [NaN]; Frame T_scenario];
                           stdout := ["started"];
                           files := [];
                           damaged := [] |})
  /\ deref (main_step4 0 (snd (main_step4 0 (holding T_scenario))))
     = deref (main_step4 0 (holding T_scenario)).
Proof.
  apply (filter_deterministic T_scenario); reflexivity.
Defined.

(** C9.  Step 4 changes no object that existed before it, the input table
    included: the heap only grows by the objects step 4 creates, and
    nothing is printed or written. *)
Theorem input_not_mutated (T : DataFrame) (p : Proc) (df : nat) :
  refers_frame df T p ->
  refers_frame df T (snd (main_step4 df p))
  /\ (exists news : list PyObj,
        heap (snd (main_step4 df p)) = heap p ++ news)
  /\ (forall (l : nat) (o : PyObj),
        refers l o p -> refers l o (snd (main_step4 df p)))
  /\ stdout (snd (main_step4 df p)) = stdout p
  /\ files (snd (main_step4 df p)) = files p.
Proof.
  intros Hdf.
  pose proof (runs_as_extends _ _ _ _ (main_step4_runs p df T Hdf)) as Hext.
  split; [exact (extends_refers _ _ _ _ Hext Hdf)|].
  split; [destruct Hext as [news ->]; now exists news|].
  split; [intros l o; exact (extends_refers _ _ l o Hext)|].
  destruct Hext as [news ->]. now split.
Qed.

Lemma input_not_mutated_witness :
  refers_frame 0 T_scenario (snd (main_step4 0 (holding T_scenario)))
  /\ (exists news : list PyObj,
        heap (snd (main_step4 0 (holding T_scenario)))
        = heap (holding T_scenario) ++ news)
  /\ (forall (l : nat) (o : PyObj),
        refers l o (holding T_scenario) ->
        refers l o (snd (main_step4 0 (holding T_scenario))))
  /\ stdout (snd (main_step4 0 (holding T_scenario)))
     = stdout (holding T_scenario)
  /\ files (snd (main_step4 0 (holding T_scenario)))
     = files (holding T_scenario).
Proof.
  apply (input_not_mutated T_scenario (holding T_scenario) 0). reflexivity.
Defined.

(** C10.  Missing IP or HostName values compare equal, in the anti-join and
    in the deduplication.  A record whose IP (or HostName) is missing is
    absent from the output as soon as a marked record has its IP (or
    HostName) missing too and the same value in the other key column; two
    records of the output whose IP (or HostName) is missing and that agree
    on the other key column are one record; and every record whose pair is
    not excluded has a representative with the same pair in the output. *)
Theorem missing_keys_compare_equal (T out : DataFrame) :
  rectangular T -> filter_pipeline T = inr out ->
  (forall r m : list scalar,
     In m (rows T) -> carries_marker T m ->
     field T "IP" r = NaN -> field T "IP" m = NaN ->
     field T "HostName" r = field T "HostName" m ->
     ~ In r (rows out))
  /\ (forall r m : list scalar,
        In m (rows T) -> carries_marker T m ->
        field T "HostName" r = NaN -> field T "HostName" m = NaN ->
        field T "IP" r = field T "IP" m ->
        ~ In r (rows out))
  /\ (forall r1 r2 : list scalar,
        In r1 (rows out) -> In r2 (rows out) ->
        field T "IP" r1 = NaN -> field T "IP" r2 = NaN ->
        field T "HostName" r1 = field T "HostName" r2 ->
        r1 = r2)
  /\ (forall r1 r2 : list scalar,
        In r1 (rows out) -> In r2 (rows out) ->
        field T "HostName" r1 = NaN -> field T "HostName" r2 = NaN ->
        field T "IP" r1 = field T "IP" r2 ->
        r1 = r2)
  /\ (forall r : list scalar,
        In r (rows T) -> ~ ExclusionSet T (host_key T r) ->
        exists r' : list scalar,
          In r' (rows out) /\ host_key T r' = host_key T r).
Proof.
  intros Hrect Hout.
  destruct (filter_pipeline_inv T out Hrect Hout) as [_ ->].
  assert (Hexcl : forall r m : list scalar,
            In m (rows T) -> carries_marker T m ->
            host_key T r = host_key T m -> ~ In r (rows (filtered T))).
  { intros r m Hm Hc Hk Hr. apply filtered_In in Hr as [_ Hr].
    apply Hr. exists m. auto. }
  assert (Huniq : forall r1 r2 : list scalar,
            In r1 (rows (filtered T)) -> In r2 (rows (filtered T)) ->
            host_key T r1 = host_key T r2 -> r1 = r2).
  { intros r1 r2. apply NoDup_map_eq. apply dedup_first_NoDup. }
  repeat split.
  - intros r m Hm Hc Hr1 Hm1 Hh. apply (Hexcl r m Hm Hc).
    unfold host_key. congruence.
  - intros r m Hm Hc Hr1 Hm1 Hh. apply (Hexcl r m Hm Hc).
    unfold host_key. congruence.
  - intros r1 r2 H1 H2 Hn1 Hn2 Hh. apply (Huniq r1 r2 H1 H2).
    unfold host_key. congruence.
  - intros r1 r2 H1 H2 Hn1 Hn2 Hh. apply (Huniq r1 r2 H1 H2).
    unfold host_key. congruence.
  - intros r Hr Hex. cbn [filtered rows].
    apply dedup_first_represents. now apply retained_In.
Qed.

Lemma missing_keys_compare_equal_witness :
  (forall r m : list scalar,
     In m (rows T_missing_keys) -> carries_marker T_missing_keys m ->
     field T_missing_keys "IP" r = NaN ->
     field T_missing_keys "IP" m = NaN ->
     field T_missing_keys "HostName" r = field T_missing_keys "HostName" m ->
     ~ In r [[Str "chrome.exe"; NaN; NaN];
             [Str "ninjarmmagent.exe"; Str "10.0.0.9"; NaN]])
  /\ (forall r m : list scalar,
        In m (rows T_missing_keys) -> carries_marker T_missing_keys m ->
        field T_missing_keys "HostName" r = NaN ->
        field T_missing_keys "HostName" m = NaN ->
        field T_missing_keys "IP" r = field T_missing_keys "IP" m ->
        ~ In r [[Str "chrome.exe"; NaN; NaN];
                [Str "ninjarmmagent.exe"; Str "10.0.0.9"; NaN]])
  /\ (forall r1 r2 : list scalar,
        In r1 [[Str "chrome.exe"; NaN; NaN];
               [Str "ninjarmmagent.exe"; Str "10.0.0.9"; NaN]] ->
        In r2 [[Str "chrome.exe"; NaN; NaN];
               [Str "ninjarmmagent.exe"; Str "10.0.0.9"; NaN]] ->
        field T_missing_keys "IP" r1 = NaN ->
        field T_missing_keys "IP" r2 = NaN ->
        field T_missing_keys "HostName" r1
        = field T_missing_keys "HostName" r2 ->
        r1 = r2)
  /\ (forall r1 r2 : list scalar,
        In r1 [[Str "chrome.exe"; NaN; NaN];
               [Str "ninjarmmagent.exe"; Str "10.0.0.9"; NaN]] ->
        In r2 [[Str "chrome.exe"; NaN; NaN];
               [Str "ninjarmmagent.exe"; Str "10.0.0.9"; NaN]] ->
        field T_missing_keys "HostName" r1 = NaN ->
        field T_missing_keys "HostName" r2 = NaN ->
        field T_missing_keys "IP" r1 = field T_missing_keys "IP" r2 ->
        r1 = r2)
  /\ (forall r : list scalar,
        In r (rows T_missing_keys) ->
        ~ ExclusionSet T_missing_keys (host_key T_missing_keys r) ->
        exists r' : list scalar,
          In r' [[Str "chrome.exe"; NaN; NaN];
                 [Str "ninjarmmagent.exe"; Str "10.0.0.9"; NaN]]
          /\ host_key T_missing_keys r' = host_key T_missing_keys r).
Proof.
  apply (missing_keys_compare_equal T_missing_keys
           (inventory [[Str "chrome.exe"; NaN; NaN];
                       [Str "ninjarmmagent.exe"; Str "10.0.0.9"; NaN]])).
  - repeat constructor.
  - reflexivity.
Defined.

(** The scenario with missing keys, evaluated: the records of host A
    without IP go with the agent's, and of the two records without any
    key the first stays. *)
Example missing_keys_scenario :
  filter_pipeline T_missing_keys
  = inr (inventory [[Str "chrome.exe"; NaN; NaN];
                    [Str "ninjarmmagent.exe"; Str "10.0.0.9"; NaN]]).
Proof. reflexivity. Qed.

(** An empty table goes through unchanged, and the whole of [main] on the
    three-row scenario saves the record of host B. *)
Example empty_table :
  filter_pipeline (inventory []) = inr (inventory []).
Proof. reflexivity. Qed.

Example main_scenario :
  run_main (world_reading (inr T_scenario))
  = {| status := 0;
       printed :=
         ["Module 'pandas' is already installed.";
          ("Filtered CSV saved to: "
             ++ save_path (world_reading (inr T_scenario)))%string];
       written :=
         [(save_path (world_reading (inr T_scenario)),
           inventory [[Str "chrome.exe"; Str "10.0.0.2"; Str "B"]])];
       traceback := None |}.
Proof. reflexivity. Qed.

(** ** Further properties of step 4 *)

Lemma filter_as_mask {A : Type} (f : A -> bool) (l : list A) :
  filter f l = mask_filter (map f l) l.
Proof.
  induction l as [|x l IH]; cbn; [reflexivity|]. now rewrite IH.
Qed.

Lemma mask_filter_nil {A : Type} (m : list bool) :
  mask_filter m (@nil A) = [].
Proof. now destruct m. Qed.

Lemma mask_filter_none {A : Type} (l : list A) :
  mask_filter (repeat false (List.length l)) l = [].
Proof. induction l as [|x l IH]; cbn; [reflexivity | exact IH]. Qed.

Lemma mask_filter_length {A : Type} (m : list bool) (l : list A) :
  List.length (mask_filter m l) <= List.length l.
Proof.
  revert m. induction l as [|x l IH]; intros [|b m]; cbn; try lia.
  specialize (IH m). destruct b; cbn; lia.
Qed.

(** A selection from a selection is a selection from the whole. *)
Lemma mask_compose {A : Type} (l : list A) (m1 m2 : list bool) :
  List.length m1 = List.length l ->
  exists m : list bool,
    List.length m = List.length l
    /\ mask_filter m l = mask_filter m2 (mask_filter m1 l).
Proof.
  revert m1 m2. induction l as [|x l IH]; intros [|b m1] m2 Hlen;
    cbn in Hlen; try discriminate.
  - exists []. split; [reflexivity|]. cbn. symmetry. apply mask_filter_nil.
  - injection Hlen as Hlen. destruct b.
    + destruct m2 as [|b2 m2].
      * exists (repeat false (S (List.length l))).
        split; [apply repeat_length|].
        exact (mask_filter_none (x :: l)).
      * destruct (IH m1 m2 Hlen) as (m & Hm & Heq).
        exists (b2 :: m). split; [cbn; now rewrite Hm|].
        cbn. rewrite Heq. reflexivity.
    + destruct (IH m1 m2 Hlen) as (m & Hm & Heq).
      exists (false :: m). split; [cbn; now rewrite Hm|].
      cbn. exact Heq.
Qed.

(** The records of the returned table are records of the input that do not
    carry the marker. *)
Lemma filtered_clean (T : DataFrame) (r : list scalar) :
  In r (rows (filtered T)) -> In r (rows T) /\ ~ carries_marker T r.
Proof.
  intros Hr. apply filtered_In in Hr as [Hfirst Hex].
  pose proof (first_with_key_In _ _ _ Hfirst) as Hin.
  split; [exact Hin|]. intros Hc. apply Hex. now exists r.
Qed.

Lemma filtered_selection (T : DataFrame) :
  exists m : list bool,
    List.length m = List.length (rows T)
    /\ rows (filtered T) = mask_filter m (rows T).
Proof.
  cbn [filtered rows]. rewrite <- keep_first_dedup.
  unfold keep_first_from, retained. rewrite filter_as_mask.
  destruct (mask_compose (rows T)
              (map (fun r => negb (excluded_b T r)) (rows T))
              (map negb
                 (duplicated_from []
                    (map (host_key T)
                       (mask_filter
                          (map (fun r => negb (excluded_b T r)) (rows T))
                          (rows T))))))
    as (m & Hm & Heq); [apply length_map|].
  exists m. split; [exact Hm | now symmetry].
Qed.

(** X1.  The output has the columns of the input, and its records are a
    selection of the input's records: the same rows, cell for cell, in the
    input's order; so it has no more records than the input. *)
Theorem output_is_selection (T out : DataFrame) :
  rectangular T -> filter_pipeline T = inr out ->
  columns out = columns T
  /\ (exists m : list bool,
        List.length m = List.length (rows T)
        /\ rows out = mask_filter m (rows T))
  /\ List.length (rows out) <= List.length (rows T).
Proof.
  intros Hrect Hout.
  destruct (filter_pipeline_inv T out Hrect Hout) as [_ ->].
  split; [reflexivity|]. split; [apply filtered_selection|].
  destruct (filtered_selection T) as (m & _ & ->).
  apply mask_filter_length.
Qed.

Lemma output_is_selection_witness :
  columns (inventory [[Str "chrome.exe"; NaN; NaN];
                      [Str "ninjarmmagent.exe"; Str "10.0.0.9"; NaN]])
  = columns T_missing_keys
  /\ (exists m : list bool,
        List.length m = List.length (rows T_missing_keys)
        /\ rows (inventory [[Str "chrome.exe"; NaN; NaN];
                            [Str "ninjarmmagent.exe"; Str "10.0.0.9"; NaN]])
           = mask_filter m (rows T_missing_keys))
  /\ List.length
       (rows (inventory [[Str "chrome.exe"; NaN; NaN];
                         [Str "ninjarmmagent.exe"; Str "10.0.0.9"; NaN]]))
     <= List.length (rows T_missing_keys).
Proof.
  apply (output_is_selection T_missing_keys).
  - repeat constructor.
  - reflexivity.
Defined.

(** X2.  No record of the output carries the marker: a row whose Name
    contains NinjaRMMAgent never reaches the output, and every output
    record is a record of the input. *)
Theorem output_agent_free (T out : DataFrame) (r : list scalar) :
  rectangular T -> filter_pipeline T = inr out -> In r (rows out) ->
  In r (rows T) /\ ~ carries_marker T r
  /\ carries_marker_b T r = false.
Proof.
  intros Hrect Hout Hr.
  destruct (filter_pipeline_inv T out Hrect Hout) as [_ ->].
  destruct (filtered_clean T r Hr) as [Hin Hc].
  split; [exact Hin|]. split; [exact Hc|].
  destruct (carries_marker_b T r) eqn:Hb; [|reflexivity].
  apply carries_marker_iff in Hb. contradiction.
Qed.

Lemma output_agent_free_witness :
  In [Str "chrome.exe"; Str "10.0.0.2"; Str "B"] (rows T_scenario)
  /\ ~ carries_marker T_scenario [Str "chrome.exe"; Str "10.0.0.2"; Str "B"]
  /\ carries_marker_b T_scenario [Str "chrome.exe"; Str "10.0.0.2"; Str "B"]
     = false.
Proof.
  apply (output_agent_free T_scenario
           (inventory [[Str "chrome.exe"; Str "10.0.0.2"; Str "B"]])).
  - repeat constructor.
  - reflexivity.
  - left. reflexivity.
Defined.

(** X4.  A table without rows that has the three columns and no reserved
    label goes through unchanged, whatever its other columns. *)
Theorem empty_table_passes (T : DataFrame) :
  rows T = [] ->
  forallb (fun c => label_in c (columns T)) required = true ->
  existsb reserved_indicator (columns T) = false ->
  filter_pipeline T = inr T.
Proof.
  intros Hrows Hcols Hres.
  assert (Hrect : rectangular T).
  { unfold rectangular. rewrite Hrows. constructor. }
  assert (Hok : schema_ok T = true).
  { unfold schema_ok, columns_ok. now rewrite Hcols, Hres, Hrows. }
  rewrite (filter_pipeline_ok T Hrect Hok). f_equal.
  unfold filtered, retained. rewrite Hrows. destruct T as [cols rs].
  cbn in Hrows |- *. now rewrite Hrows.
Qed.

Lemma empty_table_passes_witness :
  filter_pipeline T_header_only = inr T_header_only.
Proof. apply (empty_table_passes T_header_only); reflexivity. Defined.

(** X5.  On a rectangular table, step 4 returns a table exactly when the
    three columns are present, the Name column is a column of strings (the
    table has no row, or some Name is a string: not every Name is missing,
    a number or a boolean) and no column has a label reserved for the
    indicator of [merge]. *)
Theorem filter_returns_iff_schema (T : DataFrame) :
  rectangular T ->
  (exists out : DataFrame, filter_pipeline T = inr out) <-> schema_ok T = true.
Proof.
  intros Hrect. split.
  - intros [out Hout]. exact (proj1 (filter_pipeline_inv T out Hrect Hout)).
  - intros Hok. exists (filtered T). exact (filter_pipeline_ok T Hrect Hok).
Qed.

Lemma filter_returns_iff_schema_witness :
  (exists out : DataFrame, filter_pipeline T_merge_column = inr out)
  <-> schema_ok T_merge_column = true.
Proof.
  apply (filter_returns_iff_schema T_merge_column). repeat constructor.
Defined.

(** X6.  Outside that schema step 4 raises the exception of the first
    statement that fails: [KeyError] for Name when Name is absent, whatever
    else is wrong; else [AttributeError] when the Name column is not a
    column of strings; else [KeyError] listing those of IP and HostName
    that are absent; else the [ValueError] of [merge] for a reserved
    label. *)
Theorem step4_error_precedence (T : DataFrame) :
  schema_ok T = false ->
  filter_pipeline T = inl (schema_error T)
  /\ (label_in "Name" (columns T) = false ->
      schema_error T = KeyError ["Name"])
  /\ (label_in "Name" (columns T) = true ->
      text_column (map (field T "Name") (rows T)) = false ->
      schema_error T
      = AttributeError)
  /\ (label_in "Name" (columns T) = true ->
      text_column (map (field T "Name") (rows T)) = true ->
      absent ["IP"; "HostName"] (columns T) <> [] ->
      schema_error T = KeyError (absent ["IP"; "HostName"] (columns T)))
  /\ (columns_ok T = true ->
      schema_error T = ValueError
      /\ existsb reserved_indicator (columns T) = true).
Proof.
  intros Hbad. split.
  { rewrite filter_pipeline_pure. exact (step4_pure_error T Hbad). }
  unfold schema_error. repeat split.
  - intros ->. reflexivity.
  - intros -> ->. reflexivity.
  - intros -> -> Habs. cbn [negb].
    destruct (absent ["IP"; "HostName"] (columns T)); congruence.
  - destruct (columns_ok_inv T H) as (n & i & j & Hn & Hi & Hj & Ht).
    replace (label_in "Name" (columns T)) with true
      by (symmetry; apply index_of_label_in; eauto).
    rewrite Ht. cbn [negb]. unfold absent. cbn [filter].
    replace (label_in "IP" (columns T)) with true
      by (symmetry; apply index_of_label_in; eauto).
    replace (label_in "HostName" (columns T)) with true
      by (symmetry; apply index_of_label_in; eauto).
    reflexivity.
  - unfold schema_ok in Hbad. rewrite H in Hbad. cbn [andb] in Hbad.
    now apply negb_false_iff in Hbad.
Qed.

Lemma step4_error_precedence_witness :
  filter_pipeline T_no_ip = inl (schema_error T_no_ip)
  /\ (label_in "Name" (columns T_no_ip) = false ->
      schema_error T_no_ip = KeyError ["Name"])
  /\ (label_in "Name" (columns T_no_ip) = true ->
      text_column (map (field T_no_ip "Name") (rows T_no_ip)) = false ->
      schema_error T_no_ip
      = AttributeError)
  /\ (label_in "Name" (columns T_no_ip) = true ->
      text_column (map (field T_no_ip "Name") (rows T_no_ip)) = true ->
      absent ["IP"; "HostName"] (columns T_no_ip) <> [] ->
      schema_error T_no_ip
      = KeyError (absent ["IP"; "HostName"] (columns T_no_ip)))
  /\ (columns_ok T_no_ip = true ->
      schema_error T_no_ip = ValueError
      /\ existsb reserved_indicator (columns T_no_ip) = true).
Proof. apply (step4_error_precedence T_no_ip). reflexivity. Defined.

(** ** Further properties of [main] *)

Local Open Scope proc_scope.

Lemma main_not_ready (w : World) :
  pandas_ready w = false ->
  main w fresh = (fst (ensure_pandas_installed w fresh) ,
                  snd (ensure_pandas_installed w fresh))
  /\ exists e, fst (ensure_pandas_installed w fresh) = inl e.
Proof.
  intros Hnot.
  destruct (ensure_not_ready w fresh Hnot) as (e & p' & He & _).
  unfold main. rewrite (bind_inl _ _ _ _ _ He), He. cbn. eauto.
Qed.

(** [main] once the filter has returned: what remains is the write. *)
Lemma main_after_filter (w : World) (T out : DataFrame) :
  pandas_ready w = true ->
  truthy (open_dialog w) = true ->
  read_csv w (or_empty (open_dialog w)) = inr T ->
  filter_pipeline T = inr out ->
  exists hp : list PyObj,
    main w fresh =
    match to_csv w (save_path w) with
    | Some msg =>
        (inl (SystemExit 1),
         {| heap := hp;
            stdout := install_lines w
                      ++ [("Failed to save CSV: " ++ msg)%string];
            files := [];
            damaged := if to_csv_opened w (save_path w)
                       then [save_path w] else [] |})
    | None =>
        (inr tt,
         {| heap := hp;
            stdout := install_lines w
                      ++ [("Filtered CSV saved to: " ++ save_path w)%string];
            files := [(save_path w, out)];
            damaged := [] |})
    end.
Proof.
  intros Hready Hopen Hread Hout.
  rewrite (main_at_filter w T Hready Hopen Hread).
  set (p0 := {| heap := [Frame T]; stdout := install_lines w; files := [];
              damaged := [] |}).
  assert (H0 : refers_frame 0 T p0) by reflexivity.
  destruct (main_step4_runs p0 0 T H0) as (p' & [news ->] & Hm).
  rewrite <- filter_pipeline_pure, Hout in Hm.
  destruct Hm as (l & Hm & Hl). rewrite (bind_inr _ _ _ _ _ Hm).
  rewrite (main_step567_runs w l out _ Hl).
  exists (heap p0 ++ news).
  destruct (to_csv w (save_path w)); [|reflexivity].
  unfold printing, spoiling. cbn [heap stdout files damaged].
  destruct (to_csv_opened w (save_path w)); reflexivity.
Qed.

(** A file appears only at the end of a run in which every step succeeded. *)
Lemma run_main_written_inv (w : World) :
  written (run_main w) <> [] ->
  pandas_ready w = true
  /\ truthy (open_dialog w) = true
  /\ exists T out : DataFrame,
       read_csv w (or_empty (open_dialog w)) = inr T
       /\ filter_pipeline T = inr out
       /\ to_csv w (save_path w) = None.
Proof.
  rewrite run_main_written. intros Hw.
  destruct (pandas_ready w) eqn:Hready.
  2:{ exfalso. apply Hw.
      destruct (ensure_not_ready w fresh Hready) as (e & p' & He & Hf).
      unfold main. now rewrite (bind_inl _ _ _ _ _ He). }
  destruct (truthy (open_dialog w)) eqn:Hopen.
  2:{ exfalso. apply Hw. unfold main.
      rewrite (bind_inr _ _ _ _ _ (ensure_ready w fresh Hready)).
      now rewrite (bind_inl _ _ _ _ _ (main_step2_cancelled w _ Hopen)). }
  destruct (read_csv w (or_empty (open_dialog w))) as [msg|T] eqn:Hread.
  { exfalso. apply Hw. unfold main.
    rewrite (bind_inr _ _ _ _ _ (ensure_ready w fresh Hready)).
    rewrite (bind_inr _ _ _ _ _ (main_step2_chosen w _ Hopen)).
    now rewrite (bind_inl _ _ _ _ _ (main_step3_failed w _ msg _ Hread)). }
  destruct (filter_pipeline T) as [e|out] eqn:Hout.
  { exfalso. apply Hw.
    rewrite (main_at_filter w T Hready Hopen Hread).
    set (p0 := {| heap := [Frame T]; stdout := install_lines w;
                  files := []; damaged := [] |}).
    assert (H0 : refers_frame 0 T p0) by reflexivity.
    destruct (main_step4_runs p0 0 T H0) as (p' & [news ->] & Hm).
    rewrite <- filter_pipeline_pure, Hout in Hm.
    now rewrite (bind_inl _ _ _ _ _ Hm). }
  destruct (main_after_filter w T out Hready Hopen Hread Hout) as [hp Hmain].
  destruct (to_csv w (save_path w)) as [msg|] eqn:Hto.
  { exfalso. apply Hw. now rewrite Hmain. }
  split; [reflexivity|]. split; [reflexivity|]. exists T, out. auto.
Qed.

(** X7.  When the open dialog is cancelled (no path, or an empty one),
    [main] prints one line and ends with status 0; nothing is read and no
    file is written. *)
Theorem cancel_exits_cleanly (w : World) :
  pandas_ready w = true ->
  truthy (open_dialog w) = false ->
  run_main w
  = {| status := 0;
       printed := install_lines w ++ ["No file selected. Exiting."];
       written := [];
       traceback := None |}.
Proof.
  intros Hready Hopen. unfold run_main, main.
  rewrite (bind_inr _ _ _ _ _ (ensure_ready w fresh Hready)).
  rewrite (bind_inl _ _ _ _ _ (main_step2_cancelled w _ Hopen)).
  reflexivity.
Qed.

Lemma cancel_exits_cleanly_witness :
  run_main w_cancelled
  = {| status := 0;
       printed := install_lines w_cancelled ++ ["No file selected. Exiting."];
       written := [];
       traceback := None |}.
Proof. apply (cancel_exits_cleanly w_cancelled); reflexivity. Defined.

(** X8.  When the write of the result fails, [main] prints the message of
    the failure and ends with status 1; no file is recorded as written and
    no traceback is shown. *)
Theorem write_failure_fatal (w : World) (T out : DataFrame) (msg : string) :
  pandas_ready w = true ->
  truthy (open_dialog w) = true ->
  read_csv w (or_empty (open_dialog w)) = inr T ->
  filter_pipeline T = inr out ->
  to_csv w (save_path w) = Some msg ->
  run_main w
  = {| status := 1;
       printed := install_lines w ++ [("Failed to save CSV: " ++ msg)%string];
       written := [];
       traceback := None |}.
Proof.
  intros Hready Hopen Hread Hout Hto.
  destruct (main_after_filter w T out Hready Hopen Hread Hout) as [hp Hmain].
  unfold run_main. rewrite Hmain, Hto. reflexivity.
Qed.

Lemma write_failure_fatal_witness :
  run_main w_read_only
  = {| status := 1;
       printed := install_lines w_read_only
                  ++ [("Failed to save CSV: " ++ "Permission denied")%string];
       written := [];
       traceback := None |}.
Proof.
  apply (write_failure_fatal w_read_only T_scenario
           (inventory [[Str "chrome.exe"; Str "10.0.0.2"; Str "B"]]));
    reflexivity.
Defined.

(** X9.  When every step succeeds, [main] ends with status 0 after writing
    exactly one file, the output of the filter: under the path chosen in
    the save dialog, or, when that dialog is cancelled, under
    [MachinesWithoutNinja.csv] in the user's Downloads folder. *)
Theorem success_writes_one_file (w : World) (T out : DataFrame) :
  pandas_ready w = true ->
  truthy (open_dialog w) = true ->
  read_csv w (or_empty (open_dialog w)) = inr T ->
  filter_pipeline T = inr out ->
  to_csv w (save_path w) = None ->
  run_main w
  = {| status := 0;
       printed := install_lines w
                  ++ [("Filtered CSV saved to: " ++ save_path w)%string];
       written := [(save_path w, out)];
       traceback := None |}
  /\ (truthy (save_dialog w) = true ->
      save_path w = or_empty (save_dialog w))
  /\ (truthy (save_dialog w) = false ->
      save_path w
      = os_path_join ("C:/Users/" ++ getuser w ++ "/Downloads")%string
                     "MachinesWithoutNinja.csv").
Proof.
  intros Hready Hopen Hread Hout Hto.
  destruct (main_after_filter w T out Hready Hopen Hread Hout) as [hp Hmain].
  split; [unfold run_main; rewrite Hmain, Hto; reflexivity|].
  unfold save_path. split; intros ->; reflexivity.
Qed.

Lemma success_writes_one_file_witness :
  run_main (world_reading (inr T_scenario))
  = {| status := 0;
       printed := install_lines (world_reading (inr T_scenario))
                  ++ [("Filtered CSV saved to: "
                         ++ save_path (world_reading (inr T_scenario)))%string];
       written := [(save_path (world_reading (inr T_scenario)),
                    inventory [[Str "chrome.exe"; Str "10.0.0.2"; Str "B"]])];
       traceback := None |}
  /\ (truthy (save_dialog (world_reading (inr T_scenario))) = true ->
      save_path (world_reading (inr T_scenario))
      = or_empty (save_dialog (world_reading (inr T_scenario))))
  /\ (truthy (save_dialog (world_reading (inr T_scenario))) = false ->
      save_path (world_reading (inr T_scenario))
      = os_path_join
          ("C:/Users/" ++ getuser (world_reading (inr T_scenario))
             ++ "/Downloads")%string
          "MachinesWithoutNinja.csv").
Proof.
  apply (success_writes_one_file (world_reading (inr T_scenario)) T_scenario
           (inventory [[Str "chrome.exe"; Str "10.0.0.2"; Str "B"]]));
    reflexivity.
Defined.

(** X11.  Whatever [main] writes is clean: the table in the file has the
    columns of the table that was read, its records are records of that
    table, none of them carries the marker or belongs to a host that has a
    marked record, and no two of them have the same (IP, HostName) pair. *)
Theorem written_table_clean (w : World) (T out : DataFrame) (path : string) :
  read_csv w (or_empty (open_dialog w)) = inr T ->
  rectangular T ->
  In (path, out) (written (run_main w)) ->
  path = save_path w
  /\ columns out = columns T
  /\ NoDup (map (host_key T) (rows out))
  /\ forall r : list scalar,
       In r (rows out) ->
       In r (rows T) /\ ~ carries_marker T r
       /\ ~ ExclusionSet T (host_key T r).
Proof.
  intros Hread Hrect Hin.
  assert (Hw : written (run_main w) <> []).
  { intros Hnil. rewrite Hnil in Hin. destruct Hin. }
  destruct (run_main_written_inv w Hw)
    as (Hready & Hopen & T' & out' & Hread' & Hout & Hto).
  rewrite Hread in Hread'. injection Hread' as <-.
  destruct (main_after_filter w T out' Hready Hopen Hread Hout) as [hp Hmain].
  rewrite Hto in Hmain. unfold run_main in Hin. rewrite Hmain in Hin.
  cbn in Hin. destruct Hin as [Heq | []]. injection Heq as <- <-.
  destruct (filter_pipeline_inv T out' Hrect Hout) as [_ ->].
  split; [reflexivity|]. split; [reflexivity|].
  split; [apply dedup_first_NoDup|].
  intros r Hr. destruct (filtered_clean T r Hr) as [Hr' Hc].
  split; [exact Hr'|]. split; [exact Hc|].
  now apply filtered_In in Hr.
Qed.

Lemma written_table_clean_witness :
  save_path (world_reading (inr T_scenario))
  = save_path (world_reading (inr T_scenario))
  /\ columns (inventory [[Str "chrome.exe"; Str "10.0.0.2"; Str "B"]])
     = columns T_scenario
  /\ NoDup (map (host_key T_scenario)
              (rows (inventory [[Str "chrome.exe"; Str "10.0.0.2";
                                 Str "B"]])))
  /\ forall r : list scalar,
       In r (rows (inventory [[Str "chrome.exe"; Str "10.0.0.2"; Str "B"]])) ->
       In r (rows T_scenario) /\ ~ carries_marker T_scenario r
       /\ ~ ExclusionSet T_scenario (host_key T_scenario r).
Proof.
  apply (written_table_clean (world_reading (inr T_scenario)) T_scenario
           (inventory [[Str "chrome.exe"; Str "10.0.0.2"; Str "B"]])
           (save_path (world_reading (inr T_scenario)))).
  - reflexivity.
  - repeat constructor.
  - vm_compute. left. reflexivity.
Defined.

(** X12.  When pandas is neither importable nor installed by pip, the
    script stops before any dialog: pip failing with [CalledProcessError]
    or leaving pandas missing gives a message and status 1; any other
    exception of the pip call escapes with its traceback.  No file is
    written. *)
Theorem pandas_missing_fatal (w : World) :
  pandas_ready w = false ->
  written (run_main w) = []
  /\ (forall msg : string,
        pip_install w = Some (CalledProcessError msg) ->
        run_main w
        = {| status := 1;
             printed :=
               ["Module 'pandas' not found. Attempting to install via pip...";
                ("Failed to install 'pandas'. Error:" ++ nl ++ msg)%string];
             written := [];
             traceback := None |})
  /\ (pip_install w = None ->
      run_main w
      = {| status := 1;
           printed :=
             ["Module 'pandas' not found. Attempting to install via pip...";
              "pandas still not found after pip install. Exiting."];
           written := [];
           traceback := None |})
  /\ (forall e : PyExc,
        pip_install w = Some e ->
        is_CalledProcessError e = false -> is_Exception e = true ->
        run_main w
        = {| status := 1;
             printed :=
               ["Module 'pandas' not found. Attempting to install via pip..."];
             written := [];
             traceback := Some e |}).
Proof.
  intros Hnot.
  assert (Hfind : find_spec_pandas w = false).
  { unfold pandas_ready in Hnot. now destruct (find_spec_pandas w). }
  split.
  { rewrite run_main_written.
    destruct (ensure_not_ready w fresh Hnot) as (e & p' & He & Hf).
    unfold main. now rewrite (bind_inl _ _ _ _ _ He). }
  unfold pandas_ready in Hnot. rewrite Hfind in Hnot. cbn [orb] in Hnot.
  repeat split.
  - intros msg Hpip.
    assert (He : ensure_pandas_installed w fresh
                 = (inl (SystemExit 1),
                    printing fresh
                      ["Module 'pandas' not found. Attempting to install via pip...";
                       ("Failed to install 'pandas'. Error:" ++ nl ++ msg)%string])).
    { unfold ensure_pandas_installed. rewrite Hfind, Hpip. reflexivity. }
    unfold run_main, main. rewrite (bind_inl _ _ _ _ _ He). reflexivity.
  - intros Hpip. rewrite Hpip in Hnot. cbn [andb] in Hnot.
    assert (He : ensure_pandas_installed w fresh
                 = (inl (SystemExit 1),
                    printing fresh
                      ["Module 'pandas' not found. Attempting to install via pip...";
                       "pandas still not found after pip install. Exiting."])).
    { unfold ensure_pandas_installed. rewrite Hfind, Hpip, Hnot. reflexivity. }
    unfold run_main, main. rewrite (bind_inl _ _ _ _ _ He). reflexivity.
  - intros e Hpip Hncp Hexc.
    assert (He : ensure_pandas_installed w fresh
                 = (inl e,
                    printing fresh
                      ["Module 'pandas' not found. Attempting to install via pip..."])).
    { unfold ensure_pandas_installed. rewrite Hfind, Hpip. cbn [negb].
      unfold bind, try_except, print, raise. cbn. now rewrite Hncp. }
    apply (run_main_uncaught w e
             (printing fresh
                ["Module 'pandas' not found. Attempting to install via pip..."]));
      [|exact Hexc].
    unfold main. now rewrite (bind_inl _ _ _ _ _ He).
Qed.

Lemma pandas_missing_fatal_witness :
  written (run_main w_pip_fails) = []
  /\ (forall msg : string,
        pip_install w_pip_fails = Some (CalledProcessError msg) ->
        run_main w_pip_fails
        = {| status := 1;
             printed :=
               ["Module 'pandas' not found. Attempting to install via pip...";
                ("Failed to install 'pandas'. Error:" ++ nl ++ msg)%string];
             written := [];
             traceback := None |})
  /\ (pip_install w_pip_fails = None ->
      run_main w_pip_fails
      = {| status := 1;
           printed :=
             ["Module 'pandas' not found. Attempting to install via pip...";
              "pandas still not found after pip install. Exiting."];
           written := [];
           traceback := None |})
  /\ (forall e : PyExc,
        pip_install w_pip_fails = Some e ->
        is_CalledProcessError e = false -> is_Exception e = true ->
        run_main w_pip_fails
        = {| status := 1;
             printed :=
               ["Module 'pandas' not found. Attempting to install via pip..."];
             written := [];
             traceback := Some e |}).
Proof. apply (pandas_missing_fatal w_pip_fails). reflexivity. Defined.

(** ** The merger: stripping, ordering and the loop *)

Module MergerFacts.
Import Pandas Merger.



(** *** [rstrip] *)

Lemma rstrip_decompose (s : string) :
  exists n : nat, s = (rstrip_newlines s ++ newlines n)%string.
Proof.
  induction s as [|c s [n IH]]; [now exists 0|].
  cbn [rstrip_newlines]. destruct (rstrip_newlines s) as [|d t].
  - cbn in IH. subst s. destruct (Ascii.eqb c newline) eqn:Hc.
    + apply Ascii.eqb_eq in Hc. subst c. now exists (S n).
    + now exists n.
  - exists n. rewrite IH at 1. reflexivity.
Qed.

Lemma rstrip_no_trailing (s : string) :
  ends_with_newline (rstrip_newlines s) = false.
Proof.
  induction s as [|c s IH]; [reflexivity|].
  cbn [rstrip_newlines]. destruct (rstrip_newlines s) as [|d t].
  - destruct (Ascii.eqb c newline) eqn:Hc; [reflexivity | exact Hc].
  - exact IH.
Qed.

Lemma rstrip_of_newlines (n : nat) : rstrip_newlines (newlines n) = EmptyString.
Proof.
  induction n as [|n IH]; [reflexivity|].
  cbn [newlines rstrip_newlines]. rewrite IH. now rewrite Ascii.eqb_refl.
Qed.

Lemma rstrip_app_newlines (r : string) (n : nat) :
  rstrip_newlines (r ++ newlines n) = rstrip_newlines r.
Proof.
  induction r as [|c r IH]; cbn; [apply rstrip_of_newlines|].
  now rewrite IH.
Qed.

Lemma rstrip_cons (c : ascii) (s : string) :
  rstrip_newlines (String c s)
  = match rstrip_newlines s with
    | EmptyString =>
        if Ascii.eqb c newline then EmptyString else String c EmptyString
    | String d t => String c (String d t)
    end.
Proof. reflexivity. Qed.

Lemma rstrip_fixed (r : string) :
  ends_with_newline r = false -> rstrip_newlines r = r.
Proof.
  induction r as [|c r IH]; [reflexivity|].
  destruct r as [|d t].
  - cbn. now intros ->.
  - intros H. rewrite rstrip_cons, (IH H). reflexivity.
Qed.

(** *** The order of names *)

Lemma ascii_compare_refl (a : ascii) : Ascii.compare a a = Eq.
Proof. unfold Ascii.compare. apply N.compare_refl. Qed.

Lemma ascii_compare_lt_trans (a b c : ascii) :
  Ascii.compare a b = Lt -> Ascii.compare b c = Lt -> Ascii.compare a c = Lt.
Proof.
  unfold Ascii.compare. rewrite !N.compare_lt_iff. apply N.lt_trans.
Qed.

Lemma string_compare_lt_trans (s1 s2 s3 : string) :
  String.compare s1 s2 = Lt -> String.compare s2 s3 = Lt ->
  String.compare s1 s3 = Lt.
Proof.
  revert s2 s3. induction s1 as [|a s1 IH]; intros [|b s2] [|c s3];
    cbn; try congruence.
  destruct (Ascii.compare a b) eqn:Hab; try discriminate;
    destruct (Ascii.compare b c) eqn:Hbc; try discriminate.
  - apply Ascii.compare_eq_iff in Hab, Hbc. subst.
    rewrite ascii_compare_refl. apply IH.
  - apply Ascii.compare_eq_iff in Hab. subst. now rewrite Hbc.
  - apply Ascii.compare_eq_iff in Hbc. subst. now rewrite Hab.
  - now rewrite (ascii_compare_lt_trans a b c Hab Hbc).
Qed.

Lemma string_leb_trans (x y z : string) :
  String.leb x y = true -> String.leb y z = true -> String.leb x z = true.
Proof.
  unfold String.leb.
  destruct (String.compare x y) eqn:Hxy; try discriminate; intros _.
  - apply String.compare_eq_iff in Hxy. now subst.
  - destruct (String.compare y z) eqn:Hyz; try discriminate; intros _.
    + apply String.compare_eq_iff in Hyz. subst. now rewrite Hxy.
    + now rewrite (string_compare_lt_trans x y z Hxy Hyz).
Qed.

Lemma sort_sorted (l : list string) :
  StronglySorted (fun x y => String.leb x y = true) (StringSort.sort l).
Proof.
  apply StringSort.StronglySorted_sort.
  intros x y z. apply string_leb_trans.
Qed.

(** Two sorted lists with the same items are the same list. *)
Lemma sorted_unique (l1 l2 : list string) :
  StronglySorted (fun x y => String.leb x y = true) l1 ->
  StronglySorted (fun x y => String.leb x y = true) l2 ->
  Permutation l1 l2 -> l1 = l2.
Proof.
  intros H1. revert l2. induction H1 as [|a l1 Hs1 IH Ha]; intros l2 H2 Hp.
  - now apply Permutation_nil in Hp.
  - destruct H2 as [|b l2 Hs2 Hb].
    + apply Permutation_sym, Permutation_nil in Hp. discriminate.
    + assert (a = b) as <-.
      { assert (Hbin : In b (a :: l1)).
        { apply (Permutation_in b (Permutation_sym Hp)). now left. }
        assert (Hain : In a (b :: l2)).
        { apply (Permutation_in a Hp). now left. }
        destruct Hbin as [Heq | Hbin]; [exact Heq|].
        destruct Hain as [Heq | Hain]; [now symmetry|].
        apply String.leb_antisym.
        - exact (proj1 (Forall_forall _ _) Ha b Hbin).
        - exact (proj1 (Forall_forall _ _) Hb a Hain). }
      f_equal. apply IH; [exact Hs2|].
      exact (Permutation_cons_inv Hp).
Qed.

Lemma sort_permuted (l l' : list string) :
  Permutation l l' -> StringSort.sort l = StringSort.sort l'.
Proof.
  intros Hp. apply sorted_unique; try apply sort_sorted.
  eapply Permutation_trans; [apply Permutation_sym, StringSort.Permuted_sort|].
  eapply Permutation_trans; [exact Hp | apply StringSort.Permuted_sort].
Qed.

Lemma filter_permuted (keep : string -> bool) (names names' : list string) :
  Permutation names names' ->
  Permutation (filter keep names) (filter keep names').
Proof.
  induction 1 as [|x l l' _ IH|x y l|l l' l'' _ IH1 _ IH2]; cbn.
  - constructor.
  - destruct (keep x); [now constructor | exact IH].
  - destruct (keep x), (keep y); try apply Permutation_refl. apply perm_swap.
  - exact (Permutation_trans IH1 IH2).
Qed.

Lemma filter_sorted (f : string -> bool) (l : list string) :
  StronglySorted (fun x y => String.leb x y = true) l ->
  StronglySorted (fun x y => String.leb x y = true) (filter f l).
Proof.
  induction 1 as [|a l Hs IH Ha]; cbn; [constructor|].
  destruct (f a); [|exact IH]. constructor; [exact IH|].
  apply Forall_forall. intros x Hx. apply filter_In in Hx as [Hx _].
  exact (proj1 (Forall_forall _ _) Ha x Hx).
Qed.

(** Sorting the files of a listing, or taking the files of the sorted
    listing, is the same. *)
Lemma sort_filter (f : string -> bool) (l : list string) :
  StringSort.sort (filter f l) = filter f (StringSort.sort l).
Proof.
  apply sorted_unique.
  - apply sort_sorted.
  - apply filter_sorted, sort_sorted.
  - eapply Permutation_trans;
      [apply Permutation_sym, StringSort.Permuted_sort|].
    apply filter_permuted, StringSort.Permuted_sort.
Qed.

(** *** The loop *)

Lemma write_items_files (fs : Folder) (items : list string) (out : string) :
  write_items fs items out
  = write_items fs (filter (isfile fs) items) out.
Proof.
  revert out. induction items as [|item rest IH]; intros out;
    [reflexivity|].
  cbn [write_items filter]. destruct (isfile fs item) eqn:Hf.
  - cbn [write_items]. rewrite Hf.
    destruct (write fs out (header item)) as [e|o1]; [reflexivity|].
    destruct (read_text fs item) as [msg|text]; [reflexivity|].
    destruct (write fs o1 (rstrip_newlines text)) as [e|o2]; [reflexivity|].
    destruct (write fs o2 separator) as [e|o3]; [reflexivity | apply IH].
  - apply IH.
Qed.




(** The loop looks at the files only, not at the listing. *)
Lemma write_items_relist (fs : Folder) (names items : list string)
    (out : string) :
  write_items (relist fs names) items out = write_items fs items out.
Proof.
  revert out. induction items as [|item rest IH]; intros out;
    [reflexivity|].
  cbn [write_items relist isfile read_text].
  destruct (isfile fs item); [|apply IH].
  change (write (relist fs names)) with (write fs).
  destruct (write fs out (header item)) as [e|o1]; [reflexivity|].
  destruct (read_text fs item) as [msg|text]; [reflexivity|].
  destruct (write fs o1 (rstrip_newlines text)) as [e|o2]; [reflexivity|].
  destruct (write fs o2 separator) as [e|o3]; [reflexivity | apply IH].
Qed.

(** *** Properties of [merge_files_in_folder] *)

(** X13.  [rstrip] removes exactly the line feeds at the end: the text is
    the result followed by line feeds only, the result does not end with a
    line feed, and it is the only such prefix; other trailing characters,
    spaces and carriage returns included, stay. *)
Theorem rstrip_newlines_spec (s : string) :
  (exists n : nat, s = (rstrip_newlines s ++ newlines n)%string)
  /\ ends_with_newline (rstrip_newlines s) = false
  /\ (forall (r : string) (n : nat),
        s = (r ++ newlines n)%string -> ends_with_newline r = false ->
        rstrip_newlines s = r).
Proof.
  split; [apply rstrip_decompose|]. split; [apply rstrip_no_trailing|].
  intros r n -> Hr. rewrite rstrip_app_newlines. now apply rstrip_fixed.
Qed.

(** X14.  The merged text does not depend on the order in which the
    operating system lists the folder: the items are sorted first. *)
Theorem merge_order_independent (fs : Folder) (names names' : list string) :
  Permutation names names' ->
  merge_files_in_folder (relist fs names)
  = merge_files_in_folder (relist fs names').
Proof.
  intros Hp. unfold merge_files_in_folder. cbn [relist listdir open_output].
  rewrite (sort_permuted names names' Hp), !write_items_relist.
  reflexivity.
Qed.

Lemma merge_order_independent_witness :
  merge_files_in_folder (relist demo_folder ["b.txt"; "sub"; "a.txt"])
  = merge_files_in_folder (relist demo_folder ["a.txt"; "b.txt"; "sub"]).
Proof.
  apply (merge_order_independent demo_folder).
  apply (Permutation_trans (l' := ["b.txt"; "a.txt"; "sub"])).
  - apply perm_skip. apply perm_swap.
  - apply perm_swap.
Defined.

(** X15.  Items that are not files are skipped: a folder and the same
    folder without its sub-folders give the same outcome. *)
Theorem directories_skipped (fs : Folder) (names : list string) :
  merge_files_in_folder (relist fs names)
  = merge_files_in_folder (relist fs (filter (isfile fs) names)).
Proof.
  unfold merge_files_in_folder. cbn [relist listdir open_output].
  destruct (open_output fs); [reflexivity|].
  rewrite sort_filter, !write_items_relist.
  rewrite (write_items_files fs (StringSort.sort names)).
  reflexivity.
Qed.





(** X18.  A folder without files, empty or holding sub-folders only, gives
    an empty output file and no error. *)
Theorem merge_without_files (fs : Folder) (names : list string) :
  listdir fs = inr names ->
  open_output fs = None ->
  (forall item : string, In item names -> isfile fs item = false) ->
  merge_files_in_folder fs = (inr tt, Some EmptyString).
Proof.
  intros Hl Ho Hnone. unfold merge_files_in_folder. rewrite Hl, Ho.
  rewrite write_items_files.
  assert (Hnil : filter (isfile fs) (StringSort.sort names) = []).
  { rewrite <- sort_filter.
    assert (Hf : filter (isfile fs) names = []).
    { clear Hl. induction names as [|x l IH]; [reflexivity|].
      cbn. rewrite (Hnone x (or_introl eq_refl)).
      apply IH. intros y Hy. apply Hnone. now right. }
    now rewrite Hf. }
  now rewrite Hnil.
Qed.

Lemma merge_without_files_witness :
  merge_files_in_folder (relist demo_folder ["sub"])
  = (inr tt, Some EmptyString).
Proof.
  apply (merge_without_files (relist demo_folder ["sub"]) ["sub"]).
  - reflexivity.
  - reflexivity.
  - intros item [<- | []]. reflexivity.
Defined.

(** A write that raises ends the call as well: in [odd_folder] the file
    [a.txt] is merged, then the header of the next file cannot be encoded,
    and the exception leaves the output with the block of [a.txt] alone. *)
Example merge_stops_at_odd_name :
  merge_files_in_folder odd_folder
  = (inl (Exception
            "'utf-8' codec can't encode character: surrogates not allowed"),
     Some (block odd_folder "a.txt")).
Proof. reflexivity. Qed.

End MergerFacts.
